(** * RAG glue layer: configuration classifier, retrieval client,
      prompt augmentation and orchestrator.

    Shallow embedding of
      - lib/rag/config.ts              (getRagConfig)
      - lib/rag/ragie-client.ts        (retrieveContext, formatRetrievedContext)
      - lib/rag/advanced-prompting.ts  (rerankResults, createEnhancedRAGPrompt)
      - lib/rag/prompt-engineering.ts  (enhancePromptWithRAG)

    Conventions of the embedding.
      - A JavaScript string is a [string]; the text is taken to be ASCII
        (codes below 128), on which [toLowerCase], [trim] and the [/i] flag
        act as written in [JS] below.
      - A JavaScript number is the rational value of a binary64 double.  A
        rational written in a record or in the code stands for the double
        nearest to it, as a numeric literal does: every read goes through
        [JS.double], and a product is rounded to the nearest double
        ([JS.mul]).  The exponent range is taken to be unbounded: overflow,
        subnormals, NaN and the infinities are outside the model.  [topK]
        is an integer [Z].
      - [undefined] is [None]; a thrown exception is [Thrown] for a backend
        call and [None] for the body of a [try].
      - [async]/[await] is sequenced: the two backend calls are independent
        and the backend is a function of the request.
      - The external SDK is a parameter: what loading it yields and what
        its [retrieve]/[search] methods answer. *)

From Stdlib Require Import String Ascii List Bool Arith ZArith QArith Lia.
From Stdlib Require Import Qround Lqa Permutation Sorted DecimalString.
Import ListNotations.

Open Scope string_scope.

(* ------------------------------------------------------------------ *)
(** ** JavaScript string primitives *)

Module JS.

Definition nl : string := String (ascii_of_nat 10) "".

(** [String.prototype.toLowerCase], on one character. *)
Definition lowerChar (c : ascii) : ascii :=
  let n := nat_of_ascii c in
  if (65 <=? n)%nat && (n <=? 90)%nat then ascii_of_nat (n + 32) else c.

Fixpoint toLowerCase (s : string) : string :=
  match s with
  | "" => ""
  | String c s' => String (lowerChar c) (toLowerCase s')
  end.

(** [s.startsWith(p)] *)
Fixpoint startsWith (s p : string) : bool :=
  match p, s with
  | "", _ => true
  | String _ _, "" => false
  | String a p', String b s' => Ascii.eqb a b && startsWith s' p'
  end.

(** [s.includes(t)] *)
Fixpoint includes (s t : string) : bool :=
  startsWith s t ||
  match s with
  | "" => false
  | String _ s' => includes s' t
  end.

(** White space removed by [trim] (the code points below 128). *)
Definition isSpace (c : ascii) : bool :=
  let n := nat_of_ascii c in
  ((9 <=? n)%nat && (n <=? 13)%nat) || (n =? 32)%nat.

Fixpoint trimStart (s : string) : string :=
  match s with
  | "" => ""
  | String c s' => if isSpace c then trimStart s' else s
  end.

Fixpoint trimEnd (s : string) : string :=
  match s with
  | "" => ""
  | String c s' =>
      let r := trimEnd s' in
      if isSpace c && String.eqb r "" then "" else String c r
  end.

Definition trim (s : string) : string := trimEnd (trimStart s).

(** [s.slice(0, n)] for a non-negative literal [n]. *)
Fixpoint slice0 (n : nat) (s : string) : string :=
  match n, s with
  | O, _ => ""
  | _, "" => ""
  | S n', String c s' => String c (slice0 n' s')
  end.

(** [arr.join(sep)] on an array of strings. *)
Fixpoint join (sep : string) (l : list string) : string :=
  match l with
  | [] => ""
  | [x] => x
  | x :: rest => x ++ sep ++ join sep rest
  end.

(** [arr.map((x, index) => f(x, index))] *)
Fixpoint mapi_from {A B} (i : nat) (f : A -> nat -> B) (l : list A) : list B :=
  match l with
  | [] => []
  | x :: rest => f x i :: mapi_from (S i) f rest
  end.

Definition mapi {A B} (f : A -> nat -> B) (l : list A) : list B :=
  mapi_from 0 f l.

(** [arr.slice(0, k)]: a negative [k] counts from the end. *)
Definition sliceTo {A} (k : Z) (l : list A) : list A :=
  if (0 <=? k)%Z then firstn (Z.to_nat k) l
  else firstn (Z.to_nat (Z.of_nat (List.length l) + k)) l.

(** [arr.filter(p).pop()]: the last element, [undefined] on []. *)
Fixpoint pop {A} (l : list A) : option A :=
  match l with
  | [] => None
  | [x] => Some x
  | _ :: rest => pop rest
  end.

(** [arr.sort(cmp)] for a consistent comparator: ECMAScript fixes the
    result as the stable ordering by [cmp], which is unique; it is computed
    here by insertion.  [x] stays in front of [y] unless [cmp x y > 0]. *)
Fixpoint insert {A} (cmp : A -> A -> Q) (x : A) (l : list A) : list A :=
  match l with
  | [] => [x]
  | y :: rest =>
      if Qle_bool (cmp x y) 0 then x :: l else y :: insert cmp x rest
  end.

Fixpoint sort {A} (cmp : A -> A -> Q) (l : list A) : list A :=
  match l with
  | [] => []
  | x :: rest => insert cmp x (sort cmp rest)
  end.

(** [cmp x y <= 0]: the comparator lets [x] stand in front of [y]. *)
Definition before {A} (cmp : A -> A -> Q) (x y : A) : Prop :=
  (cmp x y <= 0)%Q.

(** [x || d] on a possibly undefined string: "" is falsy. *)
Definition orStr (x : option string) (d : string) : string :=
  match x with
  | Some s => if String.eqb s "" then d else s
  | None => d
  end.

(** *** binary64 numbers *)

(** [2^e] for any integer [e]. *)
Definition pow2 (e : Z) : Q :=
  match e with
  | Z0 => 1
  | Zpos p => inject_Z (Zpos (2 ^ p))
  | Zneg p => 1 # (2 ^ p)
  end.

(** The [g] with [2^g <= n/d < 2^(g+1)]. *)
Definition ilog2 (n d : positive) : Z :=
  let g := (Z.log2 (Zpos n) - Z.log2 (Zpos d))%Z in
  if Qle_bool (pow2 g) (Zpos n # d) then g else (g - 1)%Z.

(** Nearest integer, ties to the even one. *)
Definition roundHalfEven (x : Q) : Z :=
  let f := Qfloor x in
  match Qcompare (x - inject_Z f) (1 # 2) with
  | Lt => f
  | Gt => (f + 1)%Z
  | Eq => if Z.even f then f else (f + 1)%Z
  end.

(** The double nearest to [n/d > 0]: a 53-bit significand (at least 2^52,
    so positive) times a power of two. *)
Definition nearest (n d : positive) : Q :=
  let e := (ilog2 n d - 52)%Z in
  let m := Z.to_pos (roundHalfEven ((Zpos n # d) / pow2 e)) in
  Qred ((Zpos m # 1) * pow2 e).

(** The double a rational stands for (round to nearest, ties to even). *)
Definition double (q : Q) : Q :=
  match Qnum q with
  | Z0 => 0
  | Zpos n => nearest n (Qden q)
  | Zneg n => - nearest n (Qden q)
  end.

(** [x * y] on doubles. *)
Definition mul (x y : Q) : Q := double (double x * double y).

(** [x || d] on a possibly undefined number: 0 is falsy. *)
Definition orNum (x : option Q) (d : Q) : Q :=
  match x with
  | Some q => if Qeq_bool (double q) 0 then double d else double q
  | None => double d
  end.

(** [String(n)] for an integer-valued number. *)
Definition ofZ (z : Z) : string := NilZero.string_of_int (Z.to_int z).

Definition ofNat (n : nat) : string := ofZ (Z.of_nat n).

(** [Math.round] of a double: the nearest integer to its value, halves
    towards +infinity. *)
Definition round (q : Q) : Z := Qfloor (q + (1 # 2)).

(** [Math.ceil] *)
Definition ceil (q : Q) : Z := Qceiling q.

(** [/(a|b|...)/i.test(s)] *)
Definition testAny (alts : list string) (s : string) : bool :=
  existsb (fun a => includes (toLowerCase s) a) alts.

(** [/^(a|b|...)/i.test(s)] *)
Definition testAnyAtStart (alts : list string) (s : string) : bool :=
  existsb (fun a => startsWith (toLowerCase s) a) alts.

End JS.

(* ------------------------------------------------------------------ *)
(** ** config.ts *)

Module Config.

Record FormatOptions := {
template : option string;
maxCharsPerDoc : option Z;
hideSource : option bool
}.

Definition Filter := list (string * string).

Record RAGConfig := {
enabled : bool;
topK : Z;
includeMetadata : bool;
filter : option Filter;
formatOptions : option FormatOptions
}.

Definition DEFAULT_FORMAT_OPTIONS : FormatOptions :=
{| template := None; maxCharsPerDoc := Some 1500%Z; hideSource := Some false |}.

Definition DEFAULT_RAG_CONFIG : RAGConfig :=
{| enabled := true;
   topK := 3;
   includeMetadata := true;
   filter := None;
   formatOptions := Some DEFAULT_FORMAT_OPTIONS |}.

Definition greetingOpeners : list string :=
["hi"; "hello"; "hey"; "what's up"; "how are you"].

Definition factualPhrases : list string :=
["what is"; "who is"; "when did"; "where is"; "why is"; "how does"].

Definition instructionalWords : list string :=
["write"; "generate"; "create"; "build"; "implement"; "code"; "develop"].

Definition isConversational (query : string) : bool :=
JS.testAnyAtStart greetingOpeners query.

Definition isFactual (query : string) : bool :=
JS.testAny factualPhrases query.

Definition isInstructional (query : string) : bool :=
JS.testAny instructionalWords query.

(** [{ ...DEFAULT_RAG_CONFIG.formatOptions, k: v }] *)
Definition spreadFormatOptions (base : option FormatOptions) : FormatOptions :=
match base with
| Some f => f
| None => {| template := None; maxCharsPerDoc := None; hideSource := None |}
end.

Definition getRagConfig (query selectedChatModel : string) : RAGConfig :=
if isConversational query then
  {| enabled := false;
     topK := topK DEFAULT_RAG_CONFIG;
     includeMetadata := includeMetadata DEFAULT_RAG_CONFIG;
     filter := filter DEFAULT_RAG_CONFIG;
     formatOptions := formatOptions DEFAULT_RAG_CONFIG |}
else if isFactual query then
  {| enabled := enabled DEFAULT_RAG_CONFIG;
     topK := 5;
     includeMetadata := includeMetadata DEFAULT_RAG_CONFIG;
     filter := filter DEFAULT_RAG_CONFIG;
     formatOptions := formatOptions DEFAULT_RAG_CONFIG |}
else if isInstructional query then
  let base := spreadFormatOptions (formatOptions DEFAULT_RAG_CONFIG) in
  {| enabled := enabled DEFAULT_RAG_CONFIG;
     topK := 4;
     includeMetadata := includeMetadata DEFAULT_RAG_CONFIG;
     filter := filter DEFAULT_RAG_CONFIG;
     formatOptions :=
       Some {| template := template base;
               maxCharsPerDoc := Some 2000%Z;
               hideSource := hideSource base |} |}
else if String.eqb selectedChatModel "chat-model-reasoning" then
  let base := spreadFormatOptions (formatOptions DEFAULT_RAG_CONFIG) in
  {| enabled := enabled DEFAULT_RAG_CONFIG;
     topK := topK DEFAULT_RAG_CONFIG;
     includeMetadata := true;
     filter := filter DEFAULT_RAG_CONFIG;
     formatOptions :=
       Some {| template := template base;
               maxCharsPerDoc := maxCharsPerDoc base;
               hideSource := Some false |} |}
else DEFAULT_RAG_CONFIG.

End Config.

(* ------------------------------------------------------------------ *)
(** ** Data model shared by the retrieval client and the prompting code *)

Record Metadata := {
  source : option string;
  date : option string
}.

(** Which of the two queries produced a result: the field [source] that
    [retrieveContext] adds next to [content], [metadata] and [score]. *)
Inductive Origin := main_query | expansion_query.

Record RetrievalResult := {
  content : string;
  metadata : option Metadata;
  score : option Q;
  origin : option Origin
}.

(* ------------------------------------------------------------------ *)
(** ** advanced-prompting.ts *)

Module AdvancedPrompting.

(** [(a.content || '').toLowerCase().includes(query.toLowerCase())];
    [content] is always a string here, so [|| ''] changes nothing. *)
Definition containsQuery (query : string) (a : RetrievalResult) : bool :=
  JS.includes (JS.toLowerCase (content a)) (JS.toLowerCase query).

(** The comparator handed to [sort].  The two scores are doubles; the
    difference of two doubles, once rounded, has the sign of the exact
    difference, which is the one written here. *)
Definition compareFn (query : string) (a b : RetrievalResult) : Q :=
  let aContainsQuery := containsQuery query a in
  let bContainsQuery := containsQuery query b in
  if aContainsQuery && negb bContainsQuery then -1
  else if negb aContainsQuery && bContainsQuery then 1
  else JS.orNum (score b) 0 - JS.orNum (score a) 0.

Definition rerankResults (query : string) (results : list RetrievalResult)
  : list RetrievalResult :=
  if (List.length results <=? 1)%nat then results
  else JS.sort (compareFn query) results.

Definition comparisonInstructions : string :=
  JS.join JS.nl
    [ "";
      "COMPARISON INSTRUCTIONS:";
      "- Create a structured comparison between the items mentioned in the query";
      "- Include key similarities and differences";
      "- Use a table format when appropriate";
      "- Present balanced information about all items being compared" ].

Definition instructionalGuidelines : string :=
  JS.join JS.nl
    [ "";
      "INSTRUCTIONAL CONTENT GUIDELINES:";
      "- Provide clear step-by-step instructions";
      "- Number each step";
      "- Include important cautions or warnings";
      "- Add examples where helpful";
      "- Consider both beginners and more experienced users" ].

Definition codeGuidelines : string :=
  JS.join JS.nl
    [ "";
      "CODE GENERATION GUIDELINES:";
      "- Write clean, well-commented code";
      "- Include explanations for complex logic";
      "- Consider edge cases and error handling";
      "- Optimize for readability and maintainability";
      "- Provide usage examples where appropriate" ].

Definition summarizationGuidelines : string :=
  JS.join JS.nl
    [ "";
      "SUMMARIZATION GUIDELINES:";
      "- Extract the key points from the context";
      "- Be concise but comprehensive";
      "- Structure the summary logically";
      "- Maintain the original meaning and intent";
      "- Highlight the most important information" ].

Definition generateQuerySpecificInstructions (query : string) : string :=
  if JS.testAny ["compare"; "difference"; "similarities"; "versus"; "vs"] query
  then comparisonInstructions
  else if JS.testAny ["how to"; "steps"; "guide"; "tutorial"; "instructions"] query
  then instructionalGuidelines
  else if JS.testAny ["code"; "function"; "program"; "implement"; "script"] query
  then codeGuidelines
  else if JS.testAny ["summarize"; "summary"; "overview"; "brief"] query
  then summarizationGuidelines
  else "".

(** [s.replace(/\?$/, '')]: one question mark at the very end is dropped. *)
Fixpoint dropFinalQuestionMark (s : string) : string :=
  match s with
  | "" => ""
  | String c rest =>
      if Ascii.eqb c "?"%char && String.eqb rest "" then ""
      else String c (dropFinalQuestionMark rest)
  end.

Definition questionWords : list string :=
  ["what"; "when"; "where"; "why"; "who"; "how"].

Definition generateExpansionQuery (originalQuery : string) : string :=
  if existsb (fun word => JS.startsWith (JS.toLowerCase originalQuery) word)
       questionWords
  then "background information " ++ dropFinalQuestionMark originalQuery
  else "what is " ++ originalQuery.

Definition contextHeader : string :=
  JS.nl ++ JS.nl ++ "RETRIEVED CONTEXT:" ++ JS.nl.

Definition usageAndQualityGuidelines : string :=
  JS.join JS.nl
    [ "INSTRUCTIONS FOR USING CONTEXT:";
      "1. Use the retrieved context to provide accurate and informed responses";
      "2. Prioritize information from the context when directly relevant to the query";
      "3. Always evaluate the reliability and relevance of the context information";
      "4. When citing information from the context, indicate the source if available";
      "5. If the context is insufficient, use your general knowledge to supplement";
      "6. Do not invent or hallucinate information that's not in the context or your knowledge";
      "7. If asked about the source of information, be transparent about whether it came from the retrieved context";
      "";
      "RESPONSE QUALITY GUIDELINES:";
      "- Be thorough but concise";
      "- Structure your response logically with appropriate headings if needed";
      "- Use examples when they aid understanding";
      "- Consider different perspectives when appropriate";
      "- Focus on answering the user's actual needs, not just the literal query";
      "- If the user's question is unclear, request clarification";
      "" ].

Definition createEnhancedRAGPrompt
    (basePrompt userQuery retrievedContext : string) : string :=
  let queryInstructions := generateQuerySpecificInstructions userQuery in
  basePrompt ++ contextHeader ++ retrievedContext ++ JS.nl ++ JS.nl
    ++ queryInstructions ++ JS.nl ++ JS.nl ++ usageAndQualityGuidelines.

End AdvancedPrompting.

(* ------------------------------------------------------------------ *)
(** ** ragie-client.ts *)

Module RagieClient.

(** An entry of the hard-coded knowledge base: all four fields present. *)
Record KbEntry := {
  kb_content : string;
  kb_source : string;
  kb_date : string;
  kb_score : Q
}.

Definition kbMetadata (e : KbEntry) : Metadata :=
  {| source := Some (kb_source e); date := Some (kb_date e) |}.

Definition mockKb : list KbEntry :=
  [ {| kb_content := "RAG (Retrieval Augmented Generation) is a technique that enhances LLM outputs by retrieving relevant information from external knowledge sources before generating a response. This helps ground the model's responses in factual, up-to-date information.";
       kb_source := "RAG Documentation"; kb_date := "2023-10-15";
       kb_score := 92 # 100 |};
    {| kb_content := "Prompt engineering is the practice of designing and optimizing input prompts for language models to elicit desired responses. Effective prompt engineering improves output quality, reduces hallucinations, and helps control model behavior.";
       kb_source := "AI Best Practices Guide"; kb_date := "2023-09-22";
       kb_score := 87 # 100 |};
    {| kb_content := "A common RAG architecture includes: 1) an embedding model to convert documents and queries into vector representations, 2) a vector database for storing and retrieving document embeddings, 3) a retrieval mechanism to find relevant documents, and 4) an LLM to generate responses based on retrieved context.";
       kb_source := "RAG Architecture Guide"; kb_date := "2023-11-05";
       kb_score := 85 # 100 |};
    {| kb_content := "Chatbots using RAG show significant improvements in factual accuracy compared to those relying solely on pre-trained knowledge. In a recent study, RAG-enhanced chatbots reduced hallucinations by 45% and improved factual accuracy by 37%.";
       kb_source := "AI Performance Study"; kb_date := "2024-01-18";
       kb_score := 81 # 100 |};
    {| kb_content := "When implementing RAG, it's important to consider: 1) chunking strategy for breaking documents into manageable pieces, 2) embedding model selection for vector representations, 3) retrieval mechanism for finding relevant context, and 4) prompt design for effectively using the retrieved information.";
       kb_source := "RAG Implementation Guide"; kb_date := "2023-12-10";
       kb_score := 78 # 100 |};
    {| kb_content := "The ragie SDK provides retrieval capabilities with a simple API. It allows you to retrieve relevant context from your knowledge base using vector search and semantic matching.";
       kb_source := "Ragie SDK Documentation"; kb_date := "2023-11-30";
       kb_score := 91 # 100 |};
    {| kb_content := "To implement effective RAG systems, focus on the quality of your retrieval mechanism first. Even the best language models will generate incorrect information if the retrieved context is poor or irrelevant.";
       kb_source := "RAG Best Practices"; kb_date := "2024-02-15";
       kb_score := 83 # 100 |};
    {| kb_content := "When designing prompts for RAG systems, include clear instructions on how the model should use the retrieved information. For example, specify whether the model should prioritize retrieved information over its pre-trained knowledge.";
       kb_source := "Prompt Engineering for RAG"; kb_date := "2023-12-05";
       kb_score := 89 # 100 |} ].

Definition weatherResults : list KbEntry :=
  [ {| kb_content := "The weather system integration allows chatbots to retrieve current weather information for a specific location. This provides real-time, accurate weather data to users.";
       kb_source := "Weather API Integration Guide"; kb_date := "2024-01-10";
       kb_score := 95 # 100 |};
    {| kb_content := "Weather data can be accessed through various APIs like OpenWeatherMap, WeatherAPI, or government meteorological services. Most provide current conditions, forecasts, and historical data.";
       kb_source := "API Documentation"; kb_date := "2023-11-20";
       kb_score := 88 # 100 |} ].

Definition documentResults : list KbEntry :=
  [ {| kb_content := "The document creation tool allows chatbots to generate and manage various types of documents like text files, code snippets, and structured data. These documents can be edited, saved, and shared.";
       kb_source := "Document Tool Documentation"; kb_date := "2024-01-05";
       kb_score := 94 # 100 |};
    {| kb_content := "Artifact-based UI components enhance chatbot functionality by providing dedicated interfaces for different content types. This improves user experience by displaying information in the most appropriate format.";
       kb_source := "UI Component Guide"; kb_date := "2023-12-18";
       kb_score := 89 # 100 |} ].

(** The predicate of [mockKb.filter(...)]. *)
Definition kbMatches (normalizedQuery : string) (entry : KbEntry) : bool :=
  JS.includes (JS.toLowerCase (kb_content entry)) normalizedQuery
  || JS.includes normalizedQuery "rag"
  || JS.includes (JS.toLowerCase (kb_source entry)) "rag".

Definition getMockRetrievalResults (query : string) : list KbEntry :=
  let normalizedQuery := JS.toLowerCase query in
  if JS.includes normalizedQuery "weather" then weatherResults
  else if JS.includes normalizedQuery "document"
          || JS.includes normalizedQuery "artifact" then documentResults
  else
    let filtered := List.filter (kbMatches normalizedQuery) mockKb in
    JS.sliceTo 3 filtered.

(** *** The external SDK *)

(** One element of the array a backend call resolves to ([any]): the fields
    the client reads, each possibly missing. *)
Record RawResult := {
  raw_content : option string;
  raw_text : option string;
  raw_metadata : option Metadata;
  raw_score : option Q
}.

Definition ofKbEntry (e : KbEntry) : RawResult :=
  {| raw_content := Some (kb_content e);
     raw_text := None;
     raw_metadata := Some (kbMetadata e);
     raw_score := Some (kb_score e) |}.

(** What a backend call resolves to: an array, whose elements may be
    [null]/[undefined] ([None]), or a value that is no array (for instance
    an object wrapping the chunks). *)
Inductive Value :=
| NotAnArray
| Array (items : list (option RawResult)).

(** A backend call either rejects or resolves. *)
Inductive Outcome :=
| Thrown
| Returned (v : Value).

Record Params := {
  p_query : string;
  p_topK : Z;
  p_filter : Config.Filter;
  p_includeMetadata : bool
}.

(** The client object: [typeof client.retrieve === 'function'] is
    [retrieve <> None], likewise for [search]. *)
Record Client := {
  retrieve : option (Params -> Outcome);
  search : option (Params -> Outcome)
}.

Definition mockValue (q : string) : Value :=
  Array (map (fun e => Some (ofKbEntry e)) (getMockRetrievalResults q)).

Definition mockClient : Client :=
  {| retrieve := Some (fun params => Returned (mockValue (p_query params)));
     search := None |}.

(** [sdk] is what [new Ragie(...)] after [import('ragie')] yields, [None]
    when that throws.  The module variable [ragieClient] is never assigned,
    so every call takes this path. *)
Definition initRagieClient (sdk : option Client) : Client :=
  match sdk with
  | Some client => client
  | None => mockClient
  end.

Record RetrievalOptions := {
  query : string;
  topK : option Z;
  filter : option Config.Filter;
  includeMetadata : option bool
}.

Definition catchWithMock (q : string) (o : Outcome) : Value :=
  match o with
  | Returned v => v
  | Thrown => mockValue q
  end.

Definition safeRetrieve (client : Client) (filter : Config.Filter)
    (includeMetadata : bool) (q : string) (k : Z) : Value :=
  let params :=
    {| p_query := q; p_topK := k; p_filter := filter;
       p_includeMetadata := includeMetadata |} in
  match retrieve client with
  | Some f => catchWithMock q (f params)
  | None =>
      match search client with
      | Some g => catchWithMock q (g params)
      | None => mockValue q
      end
  end.

(** [v.map(f)] where [f] reads properties of its argument: a [TypeError]
    ([None]) when [v] is no array or an element is [null]/[undefined]. *)
Fixpoint mapItems {B} (f : RawResult -> B) (items : list (option RawResult))
  : option (list B) :=
  match items with
  | [] => Some []
  | None :: _ => None
  | Some r :: rest =>
      match mapItems f rest with
      | Some out => Some (f r :: out)
      | None => None
      end
  end.

Definition mapValue {B} (f : RawResult -> B) (v : Value) : option (list B) :=
  match v with
  | NotAnArray => None
  | Array items => mapItems f items
  end.

(** [result.content || result.text || ''] *)
Definition rawText (result : RawResult) : string :=
  JS.orStr (raw_content result) (JS.orStr (raw_text result) "").

Definition formatMain (includeMetadata : bool) (result : RawResult)
  : RetrievalResult :=
  {| content := rawText result;
     metadata := if includeMetadata then raw_metadata result else None;
     score := Some (JS.orNum (raw_score result) (9 # 10));
     origin := Some main_query |}.

Definition formatExpansion (includeMetadata : bool) (result : RawResult)
  : RetrievalResult :=
  {| content := rawText result;
     metadata := if includeMetadata then raw_metadata result else None;
     score := Some (JS.mul (JS.orNum (raw_score result) (7 # 10)) (8 # 10));
     origin := Some expansion_query |}.

(** [result.content.slice(0, 100).trim().toLowerCase()] *)
Definition contentHash (result : RetrievalResult) : string :=
  JS.toLowerCase (JS.trim (JS.slice0 100 (content result))).

(** The loop of [removeDuplicateResults], with the set [seen] as the list
    of the hashes added so far. *)
Fixpoint dedupFrom (seen : list string) (results : list RetrievalResult)
  : list RetrievalResult :=
  match results with
  | [] => []
  | result :: rest =>
      let h := contentHash result in
      if existsb (String.eqb h) seen then dedupFrom seen rest
      else result :: dedupFrom (h :: seen) rest
  end.

Definition removeDuplicateResults (results : list RetrievalResult)
  : list RetrievalResult :=
  dedupFrom [] results.

(** The fallback of the outer [catch]. *)
Definition fallbackResults (includeMetadata : bool) (query : string)
  : list RetrievalResult :=
  map (fun result =>
         {| content := kb_content result;
            metadata := if includeMetadata then Some (kbMetadata result)
                        else None;
            score := Some (kb_score result);
            origin := None |})
      (getMockRetrievalResults query).

Definition orDefault {A} (x : option A) (d : A) : A :=
  match x with Some a => a | None => d end.

(** The outer [try] up to [allResults]; [None] when it throws. *)
Definition allResults (sdk : option Client) (query : string) (topK : Z)
    (filter : Config.Filter) (includeMetadata : bool)
  : option (list RetrievalResult) :=
  let client := initRagieClient sdk in
  let expansionQuery := AdvancedPrompting.generateExpansionQuery query in
  let mainResults :=
    safeRetrieve client filter includeMetadata query
      (JS.ceil (JS.mul (inject_Z topK) (7 # 10))) in
  let expansionResults :=
    safeRetrieve client filter includeMetadata expansionQuery
      (JS.ceil (JS.mul (inject_Z topK) (5 # 10))) in
  match mapValue (formatMain includeMetadata) mainResults with
  | None => None
  | Some mainFormattedResults =>
      match mapValue (formatExpansion includeMetadata) expansionResults with
      | None => None
      | Some expansionFormattedResults =>
          Some (mainFormattedResults ++ expansionFormattedResults)%list
      end
  end.

(** The whole body of the outer [try]. *)
Definition tryRetrieve (sdk : option Client) (query : string) (topK : Z)
    (filter : Config.Filter) (includeMetadata : bool)
  : option (list RetrievalResult) :=
  match allResults sdk query topK filter includeMetadata with
  | None => None
  | Some allResults =>
      let uniqueResults := removeDuplicateResults allResults in
      let rerankedResults :=
        AdvancedPrompting.rerankResults query uniqueResults in
      Some (JS.sliceTo topK rerankedResults)
  end.

Definition retrieveContext (sdk : option Client) (options : RetrievalOptions)
  : list RetrievalResult :=
  let topK := orDefault (topK options) 3%Z in
  let filter := orDefault (filter options) [] in
  let includeMetadata := orDefault (includeMetadata options) true in
  match tryRetrieve sdk (query options) topK filter includeMetadata with
  | Some results => results
  | None => fallbackResults includeMetadata (query options)
  end.

(** The string appended after the content of one result. *)
Definition metadataString (result : RetrievalResult) : string :=
  match metadata result with
  | None => ""
  | Some md =>
      let s1 := JS.nl ++ "Source: " ++ JS.orStr (source md) "Unknown" in
      let s2 :=
        match date md with
        | Some d => if String.eqb d "" then s1 else s1 ++ " (" ++ d ++ ")"
        | None => s1
        end in
      match score result with
      | None => s2
      | Some sc =>
          s2 ++ JS.nl ++ "Relevance: " ++ JS.ofZ (JS.round (JS.mul sc 100)) ++ "%"
      end
  end.

Definition formatOne (result : RetrievalResult) (index : nat) : string :=
  "[Document " ++ JS.ofNat (index + 1) ++ "]:" ++ JS.nl
    ++ content result ++ metadataString result.

Definition formatRetrievedContext (retrievalResults : list RetrievalResult)
  : string :=
  match retrievalResults with
  | [] => ""
  | _ => JS.join (JS.nl ++ JS.nl) (JS.mapi formatOne retrievalResults)
  end.

End RagieClient.

(* ------------------------------------------------------------------ *)
(** ** prompt-engineering.ts *)

Module PromptEngineering.

Record Part := {
  type : string;
  text : option string
}.

Record UIMessage := {
  role : string;
  content : option string;
  parts : option (list Part)
}.

(** [join] renders an [undefined] element as the empty string. *)
Definition partText (part : Part) : string :=
  match text part with Some t => t | None => "" end.

Definition extractQueryFromMessage (message : UIMessage) : string :=
  match content message with
  | Some c => c
  | None =>
      match parts message with
      | Some ps =>
          let textParts :=
            List.filter (fun part => String.eqb (type part) "text") ps in
          match textParts with
          | [] => ""
          | _ => JS.join " " (map partText textParts)
          end
      | None => ""
      end
  end.

(** [messages.filter((msg) => msg.role === 'user').pop()] *)
Definition lastUserMessage (messages : list UIMessage) : option UIMessage :=
  JS.pop (List.filter (fun msg => String.eqb (role msg) "user") messages).

Definition retrievalOptionsOf (queryText : string) (ragConfig : Config.RAGConfig)
  : RagieClient.RetrievalOptions :=
  {| RagieClient.query := queryText;
     RagieClient.topK := Some (Config.topK ragConfig);
     RagieClient.filter := Config.filter ragConfig;
     RagieClient.includeMetadata := Some (Config.includeMetadata ragConfig) |}.

Definition isEmpty {A} (l : list A) : bool :=
  match l with [] => true | _ => false end.

Section Orchestrator.

(** [RequestHints] is declared outside these files and never read. *)
Variable RequestHints : Type.

Definition enhancePromptWithRAG (sdk : option RagieClient.Client)
    (systemPromptText : string) (messages : list UIMessage)
    (requestHints : RequestHints) (selectedChatModel : string) : string :=
  match lastUserMessage messages with
  | None => systemPromptText
  | Some userMessage =>
      let queryText := extractQueryFromMessage userMessage in
      if String.eqb queryText "" then systemPromptText
      else
        let ragConfig := Config.getRagConfig queryText selectedChatModel in
        if negb (Config.enabled ragConfig) then systemPromptText
        else
          let retrievalOptions := retrievalOptionsOf queryText ragConfig in
          let retrievedResults :=
            RagieClient.retrieveContext sdk retrievalOptions in
          if isEmpty retrievedResults then systemPromptText
          else
            let formattedContext :=
              RagieClient.formatRetrievedContext retrievedResults in
            if String.eqb formattedContext "" then systemPromptText
            else
              AdvancedPrompting.createEnhancedRAGPrompt
                systemPromptText queryText formattedContext
  end.

End Orchestrator.

Arguments enhancePromptWithRAG {RequestHints} sdk systemPromptText messages
  requestHints selectedChatModel.

(** The default value of the fourth parameter. *)
Definition defaultChatModel : string := "chat-model".

End PromptEngineering.

(* ------------------------------------------------------------------ *)
(** ** Notions used in the statements *)

Module Stated.

Import RagieClient.

(** The score [rerankResults] sorts by: [r.score || 0]. *)
Definition scoreOrZero (r : RetrievalResult) : Q := JS.orNum (score r) 0.

(** Same containment status and same score: a tie for the comparator. *)
Definition tied (query : string) (x y : RetrievalResult) : bool :=
  Bool.eqb (AdvancedPrompting.containsQuery query x)
           (AdvancedPrompting.containsQuery query y)
  && Qeq_bool (scoreOrZero x) (scoreOrZero y).

(** The options [retrieveContext] works with after its defaults. *)
Definition topKOf (o : RetrievalOptions) : Z := orDefault (topK o) 3%Z.
Definition filterOf (o : RetrievalOptions) : Config.Filter :=
  orDefault (filter o) [].
Definition includeMetadataOf (o : RetrievalOptions) : bool :=
  orDefault (includeMetadata o) true.

(** The combined list (main results, then expansion results) of a call. *)
Definition combined (sdk : option Client) (o : RetrievalOptions)
  : option (list RetrievalResult) :=
  allResults sdk (query o) (topKOf o) (filterOf o) (includeMetadataOf o).

(** A backend that is of no use: loading the SDK fails, the client has
    neither method, or the method that is called always rejects. *)
Inductive Unavailable : option Client -> Prop :=
| sdk_missing : Unavailable None
| no_method : Unavailable (Some {| retrieve := None; search := None |})
| retrieve_rejects f s :
    (forall params, f params = Thrown) ->
    Unavailable (Some {| retrieve := Some f; search := s |})
| search_rejects g :
    (forall params, g params = Thrown) ->
    Unavailable (Some {| retrieve := None; search := Some g |}).

(** A client answering every call with the same value. *)
Definition constantClient (v : Value) : Client :=
  {| retrieve := Some (fun _ => Returned v); search := None |}.

Definition optionsFor (q : string) (k : option Z) : RetrievalOptions :=
  {| query := q; topK := k; filter := None; includeMetadata := None |}.

Definition rawDoc (c : string) : RawResult :=
  {| raw_content := Some c; raw_text := None;
     raw_metadata := None; raw_score := None |}.

Definition userSays (t : string) : PromptEngineering.UIMessage :=
  {| PromptEngineering.role := "user";
     PromptEngineering.content := Some t;
     PromptEngineering.parts := None |}.

Definition sourceOf (r : RetrievalResult) : string :=
  match metadata r with
  | Some md => JS.orStr (source md) ""
  | None => ""
  end.

(** A result with just a content and, possibly, a score. *)
Definition doc (c : string) (s : option Q) : RetrievalResult :=
  {| content := c; metadata := None; score := s; origin := None |}.

(** What the two backend calls of [retrieveContext] resolve to. *)
Definition mainAnswer (sdk : option Client) (o : RetrievalOptions) : Value :=
  safeRetrieve (initRagieClient sdk) (filterOf o) (includeMetadataOf o)
    (query o) (JS.ceil (JS.mul (inject_Z (topKOf o)) (7 # 10))).

Definition expansionAnswer (sdk : option Client) (o : RetrievalOptions)
  : Value :=
  safeRetrieve (initRagieClient sdk) (filterOf o) (includeMetadataOf o)
    (AdvancedPrompting.generateExpansionQuery (query o))
    (JS.ceil (JS.mul (inject_Z (topKOf o)) (5 # 10))).

(** The output as C4 words it: the deduplicated concatenation cut to
    [topK], nothing in between. *)
Definition prefixOfDeduplicated (k : Z) (all : list RetrievalResult)
  : list RetrievalResult :=
  JS.sliceTo k (removeDuplicateResults all).

(** The duplicate key as C5 words it: trim and lower-case first, then keep
    the first 100 characters. *)
Definition keyTrimmedFirst (r : RetrievalResult) : string :=
  JS.slice0 100 (JS.toLowerCase (JS.trim (content r))).

Definition hundredAs : string := String.concat "" (List.repeat "a" 100).

(** Two documents that agree on their first 100 trimmed characters; the
    first one starts with a blank. *)
Definition paddedDoc : RawResult := rawDoc (" " ++ hundredAs ++ "b").
Definition plainDoc : RawResult := rawDoc (hundredAs ++ "c").

(** The fields C7 prints, when a result has them all: a non-empty source,
    a non-empty date and a score. *)
Definition described (r : RetrievalResult) : option (string * string * Q) :=
  match metadata r, score r with
  | Some md, Some sc =>
      match source md, date md with
      | Some s, Some d =>
          if String.eqb s "" || String.eqb d "" then None else Some (s, d, sc)
      | _, _ => None
      end
  | _, _ => None
  end.

(** One document as C7 words it. *)
Definition documentAsStated (n : nat) (c s d : string) (sc : Q) : string :=
  "[Document " ++ JS.ofNat n ++ "]:" ++ JS.nl
    ++ c ++ JS.nl
    ++ "Source: " ++ s ++ " (" ++ d ++ ")" ++ JS.nl
    ++ "Relevance: " ++ JS.ofZ (JS.round (JS.mul sc 100)) ++ "%".

(** One document without its metadata lines. *)
Definition renderBare (r : RetrievalResult) (index : nat) : string :=
  "[Document " ++ JS.ofNat (index + 1) ++ "]:" ++ JS.nl ++ content r.

Definition blankLine : string := JS.nl ++ JS.nl.

(** Every keyword [generateQuerySpecificInstructions] looks for. *)
Definition instructionKeywords : list string :=
  ["compare"; "difference"; "similarities"; "versus"; "vs";
   "how to"; "steps"; "guide"; "tutorial"; "instructions";
   "code"; "function"; "program"; "implement"; "script";
   "summarize"; "summary"; "overview"; "brief"].

(** A user message given as parts only. *)
Definition userParts (ps : list PromptEngineering.Part)
  : PromptEngineering.UIMessage :=
  {| PromptEngineering.role := "user";
     PromptEngineering.content := None;
     PromptEngineering.parts := Some ps |}.

Definition isTextPart (part : PromptEngineering.Part) : bool :=
  String.eqb (PromptEngineering.type part) "text".

(** Deduplication as C4 words it: going through the list in order, a
    result is kept exactly when none of the results before it has its
    duplicate key; the kept results stay in the order of the list. *)
Fixpoint firstOccurrencesAfter (earlier results : list RetrievalResult)
  : list RetrievalResult :=
  match results with
  | [] => []
  | r :: rest =>
      let kept := firstOccurrencesAfter (earlier ++ [r]) rest in
      if existsb (fun e => contentHash e =? contentHash r) earlier
      then kept else r :: kept
  end.

Definition firstOccurrences (results : list RetrievalResult)
  : list RetrievalResult :=
  firstOccurrencesAfter [] results.

(** The lines of one document as the amended C7 words them: the heading,
    the content, then, only with metadata, the source line, and then, only
    with a score, the relevance line. *)
Definition sourceLine (md : Metadata) : string :=
  "Source: "
    ++ match source md with
       | Some s => if s =? "" then "Unknown" else s
       | None => "Unknown"
       end
    ++ match date md with
       | Some d => if d =? "" then "" else " (" ++ d ++ ")"
       | None => ""
       end.

Definition relevanceLine (sc : Q) : string :=
  "Relevance: " ++ JS.ofZ (JS.round (JS.mul sc 100)) ++ "%".

Definition documentLines (r : RetrievalResult) (index : nat) : list string :=
  ("[Document " ++ JS.ofNat (index + 1) ++ "]:")
    :: content r
    :: match metadata r with
       | None => []
       | Some md =>
           sourceLine md
             :: match score r with
                | Some sc => [relevanceLine sc]
                | None => []
                end
       end.

Definition renderAmended (r : RetrievalResult) (index : nat) : string :=
  JS.join JS.nl (documentLines r index).

(** A described result whose score is the literal 0.285. *)
Definition docScored285 : RetrievalResult :=
  {| content := "text";
     metadata := Some {| source := Some "Notes"; date := Some "2024-01-01" |};
     score := Some (285 # 1000);
     origin := None |}.

(** The two fixed blocks of the prompt template, line by line. *)
Definition usageInstructionsBlock : string :=
  JS.join JS.nl
    [ "INSTRUCTIONS FOR USING CONTEXT:";
      "1. Use the retrieved context to provide accurate and informed responses";
      "2. Prioritize information from the context when directly relevant to the query";
      "3. Always evaluate the reliability and relevance of the context information";
      "4. When citing information from the context, indicate the source if available";
      "5. If the context is insufficient, use your general knowledge to supplement";
      "6. Do not invent or hallucinate information that's not in the context or your knowledge";
      "7. If asked about the source of information, be transparent about whether it came from the retrieved context" ].

Definition qualityGuidelinesBlock : string :=
  JS.join JS.nl
    [ "RESPONSE QUALITY GUIDELINES:";
      "- Be thorough but concise";
      "- Structure your response logically with appropriate headings if needed";
      "- Use examples when they aid understanding";
      "- Consider different perspectives when appropriate";
      "- Focus on answering the user's actual needs, not just the literal query";
      "- If the user's question is unclear, request clarification" ].

(** The lower-cased query begins with a question word. *)
Definition beginsWithQuestionWord (q : string) : Prop :=
  exists word rest,
    In word AdvancedPrompting.questionWords
    /\ JS.toLowerCase q = word ++ rest.

(** A backend item with a content and a score. *)
Definition rawScored (c : string) (sc : Q) : RawResult :=
  {| raw_content := Some c; raw_text := None;
     raw_metadata := None; raw_score := Some sc |}.

End Stated.

(* ------------------------------------------------------------------ *)
(** ** Facts about the string primitives *)

Section StringFacts.

Lemma append_nil_r (s : string) : s ++ "" = s.
Proof. induction s as [|c s IH]; simpl; [reflexivity | now rewrite IH]. Qed.

Lemma append_assoc (a b c : string) : (a ++ b) ++ c = a ++ (b ++ c).
Proof. induction a as [|x a IH]; simpl; [reflexivity | now rewrite IH]. Qed.

Lemma append_length (a b : string) :
  String.length (a ++ b) = (String.length a + String.length b)%nat.
Proof. induction a as [|x a IH]; simpl; [reflexivity | now rewrite IH]. Qed.

Lemma startsWith_spec (s p : string) :
  JS.startsWith s p = true <-> exists rest, s = p ++ rest.
Proof.
  revert s; induction p as [|a p IH]; intros s.
  - split; [intros _; now exists s | intros _; destruct s; reflexivity].
  - destruct s as [|b s]; simpl.
    + split; [discriminate | intros [rest H]; discriminate].
    + rewrite andb_true_iff, IH. split.
      * intros [Hab [rest ->]]. apply Ascii.eqb_eq in Hab. subst.
        now exists rest.
      * intros [rest H]. injection H as -> ->. split.
        -- apply Ascii.eqb_refl.
        -- now exists rest.
Qed.

Lemma includes_nil (t : string) :
  JS.includes "" t = JS.startsWith "" t.
Proof. unfold JS.includes. apply orb_false_r. Qed.

Lemma includes_cons (c : ascii) (s t : string) :
  JS.includes (String c s) t
  = JS.startsWith (String c s) t || JS.includes s t.
Proof. reflexivity. Qed.

Lemma includes_spec (s t : string) :
  JS.includes s t = true <-> exists pre post, s = pre ++ t ++ post.
Proof.
  induction s as [|c s IH].
  - rewrite includes_nil, startsWith_spec. split.
    + intros [rest H]. now exists "", rest.
    + intros [pre [post H]]. destruct pre; simpl in H.
      * now exists post.
      * discriminate.
  - rewrite includes_cons, orb_true_iff, IH, startsWith_spec.
    split.
    + intros [[rest H] | [pre [post ->]]].
      * now exists "", rest.
      * now exists (String c pre), post.
    + intros [pre [post H]]. destruct pre as [|d pre]; simpl in H.
      * left. now exists post.
      * right. injection H as -> ->. now exists pre, post.
Qed.

End StringFacts.

(* ------------------------------------------------------------------ *)
(** ** Facts about [JS.sort] *)

Section SortFacts.

Variable A : Type.
Variable cmp : A -> A -> Q.

Lemma insert_perm (x : A) (l : list A) :
  Permutation (x :: l) (JS.insert cmp x l).
Proof.
  induction l as [|y l IH]; simpl.
  - apply Permutation_refl.
  - destruct (Qle_bool (cmp x y) 0).
    + apply Permutation_refl.
    + eapply perm_trans; [apply perm_swap | apply perm_skip, IH].
Qed.

Lemma sort_perm (l : list A) : Permutation l (JS.sort cmp l).
Proof.
  induction l as [|x l IH]; simpl.
  - constructor.
  - eapply perm_trans; [apply perm_skip, IH | apply insert_perm].
Qed.

(** Elements of one class of [p] that the comparator does not separate
    keep their places: inserting [x] never jumps over one of them. *)
Lemma filter_insert (p : A -> bool) (x : A) (l : list A) :
  (forall y, p x = true -> p y = true -> JS.before cmp x y) ->
  List.filter p (JS.insert cmp x l) = List.filter p (x :: l).
Proof.
  intros Hp. induction l as [|y l IH]; [reflexivity|].
  cbn [JS.insert]. destruct (Qle_bool (cmp x y) 0) eqn:E; [reflexivity|].
  cbn [List.filter] in *. rewrite IH.
  destruct (p x) eqn:Px; [|reflexivity].
  destruct (p y) eqn:Py; [|reflexivity].
  specialize (Hp y eq_refl Py). apply Qle_bool_iff in Hp.
  unfold JS.before in *. congruence.
Qed.

Lemma filter_sort (p : A -> bool) (l : list A) :
  (forall x y, p x = true -> p y = true -> JS.before cmp x y) ->
  List.filter p (JS.sort cmp l) = List.filter p l.
Proof.
  intros Hp. induction l as [|x l IH]; [reflexivity|].
  cbn [JS.sort]. rewrite filter_insert by (intros y; apply Hp).
  cbn [List.filter]. now rewrite IH.
Qed.

Hypothesis before_total : forall x y, JS.before cmp x y \/ JS.before cmp y x.
Hypothesis before_trans :
  forall x y z, JS.before cmp x y -> JS.before cmp y z -> JS.before cmp x z.

Lemma insert_sorted (x : A) (l : list A) :
  StronglySorted (JS.before cmp) l -> StronglySorted (JS.before cmp) (JS.insert cmp x l).
Proof.
  induction 1 as [|y l Hs IH Hy]; simpl.
  - repeat constructor.
  - destruct (Qle_bool (cmp x y) 0) eqn:E.
    + apply Qle_bool_iff in E. constructor.
      * now constructor.
      * constructor; [exact E|].
        eapply Forall_impl; [|exact Hy]. intros z Hz.
        now apply before_trans with y.
    + constructor; [exact IH|].
      assert (Hyx : JS.before cmp y x).
      { destruct (before_total x y) as [H|H]; [|exact H].
        apply Qle_bool_iff in H. congruence. }
      eapply Permutation_Forall; [apply insert_perm|].
      now constructor.
Qed.

Lemma sort_sorted (l : list A) : StronglySorted (JS.before cmp) (JS.sort cmp l).
Proof.
  induction l as [|x l IH]; simpl.
  - constructor.
  - now apply insert_sorted.
Qed.

Lemma sorted_pairs (l l1 l2 l3 : list A) (a b : A) :
  StronglySorted (JS.before cmp) l -> l = (l1 ++ a :: l2 ++ b :: l3)%list ->
  JS.before cmp a b.
Proof.
  intros Hs ->. induction l1 as [|x l1 IH]; simpl in Hs.
  - inversion Hs as [|? ? _ Hall]; subst.
    rewrite Forall_forall in Hall. apply Hall.
    apply in_or_app. right. now left.
  - inversion Hs; subst. now apply IH.
Qed.

End SortFacts.

(* ------------------------------------------------------------------ *)
(** ** The configuration classifier *)

Section Classifier.

Import Config.

(** C2: the rules of [getRagConfig] are tried in the order greeting,
    factual, instructional, reasoning model, default, and the first one
    that matches decides: a greeting switches retrieval off; else a
    factual phrase gives topK 5; else an instructional word gives topK 4
    with maxCharsPerDoc 2000; else the reasoning model gives
    includeMetadata true and hideSource false; else the default
    configuration (enabled, topK 3, includeMetadata, maxCharsPerDoc 1500)
    is returned. *)
Theorem getRagConfig_first_match (query model : string) :
  (isConversational query = true ->
     enabled (getRagConfig query model) = false)
  /\ (isConversational query = false -> isFactual query = true ->
        topK (getRagConfig query model) = 5%Z)
  /\ (isConversational query = false -> isFactual query = false ->
      isInstructional query = true ->
        topK (getRagConfig query model) = 4%Z
        /\ option_map maxCharsPerDoc (formatOptions (getRagConfig query model))
           = Some (Some 2000%Z))
  /\ (isConversational query = false -> isFactual query = false ->
      isInstructional query = false -> model = "chat-model-reasoning" ->
        includeMetadata (getRagConfig query model) = true
        /\ option_map hideSource (formatOptions (getRagConfig query model))
           = Some (Some false))
  /\ (isConversational query = false -> isFactual query = false ->
      isInstructional query = false -> model <> "chat-model-reasoning" ->
        getRagConfig query model = DEFAULT_RAG_CONFIG
        /\ enabled (getRagConfig query model) = true
        /\ topK (getRagConfig query model) = 3%Z
        /\ includeMetadata (getRagConfig query model) = true
        /\ option_map maxCharsPerDoc (formatOptions (getRagConfig query model))
           = Some (Some 1500%Z)).
Proof.
  unfold getRagConfig. repeat split; intros;
    repeat match goal with
           | H : _ = true |- _ => rewrite H
           | H : _ = false |- _ => rewrite H
           | H : ?m = "chat-model-reasoning" |- _ => subst m
           | H : _ <> _ |- _ => apply String.eqb_neq in H
           end; reflexivity.
Qed.

Lemma getRagConfig_first_match_witness :
  enabled (getRagConfig "Hello there" "chat-model") = false
  /\ topK (getRagConfig "what is RAG?" "chat-model") = 5%Z
  /\ topK (getRagConfig "please build a parser" "chat-model") = 4%Z
  /\ includeMetadata (getRagConfig "vector" "chat-model-reasoning") = true
  /\ getRagConfig "vector" "chat-model" = DEFAULT_RAG_CONFIG.
Proof.
  split; [|split; [|split; [|split]]].
  - apply (proj1 (getRagConfig_first_match "Hello there" "chat-model")).
    reflexivity.
  - apply (proj1 (proj2 (getRagConfig_first_match "what is RAG?" "chat-model")));
      reflexivity.
  - apply (proj1 (proj2 (proj2
             (getRagConfig_first_match "please build a parser" "chat-model"))));
      reflexivity.
  - apply (proj1 (proj2 (proj2 (proj2
             (getRagConfig_first_match "vector" "chat-model-reasoning")))));
      reflexivity.
  - apply (proj2 (proj2 (proj2 (proj2
             (getRagConfig_first_match "vector" "chat-model")))));
      try reflexivity. discriminate.
Defined.

(** C10: whatever the query and the model id, [getRagConfig] returns a
    configuration with includeMetadata true and topK among 3, 4 and 5. *)
Theorem getRagConfig_metadata_on_topK_3_4_5 (query model : string) :
  includeMetadata (getRagConfig query model) = true
  /\ (topK (getRagConfig query model) = 3%Z
      \/ topK (getRagConfig query model) = 4%Z
      \/ topK (getRagConfig query model) = 5%Z).
Proof.
  unfold getRagConfig.
  destruct (isConversational query); [simpl; tauto|].
  destruct (isFactual query); [simpl; tauto|].
  destruct (isInstructional query); [simpl; tauto|].
  destruct (model =? "chat-model-reasoning"); simpl; tauto.
Qed.

End Classifier.

(* ------------------------------------------------------------------ *)
(** ** Reranking *)

Section Rerank.

Import AdvancedPrompting Stated.

Variable query : string.

(** What the comparator decides, read off its three branches. *)
Lemma compareFn_before (a b : RetrievalResult) :
  JS.before (compareFn query) a b <->
  (containsQuery query a = true /\ containsQuery query b = false)
  \/ (containsQuery query a = containsQuery query b
      /\ (scoreOrZero b <= scoreOrZero a)%Q).
Proof.
  unfold JS.before, compareFn, scoreOrZero.
  destruct (containsQuery query a), (containsQuery query b); simpl.
  - split; [intros H; right; split; [reflexivity | lra] | intros [[_ H]|[_ H]]; [discriminate | lra]].
  - split; [intros _; left; split; reflexivity | intros _; lra].
  - split; [intros H; lra | intros [[H _]|[H _]]; discriminate].
  - split; [intros H; right; split; [reflexivity | lra] | intros [[H _]|[_ H]]; [discriminate | lra]].
Qed.

(** The comparator is consistent: a total preorder. *)
Lemma compareFn_total (a b : RetrievalResult) :
  JS.before (compareFn query) a b \/ JS.before (compareFn query) b a.
Proof.
  rewrite !compareFn_before.
  destruct (containsQuery query a), (containsQuery query b);
    try (left; left; split; reflexivity);
    try (right; left; split; reflexivity);
    destruct (Qlt_le_dec (scoreOrZero a) (scoreOrZero b)) as [H|H];
    try (left; right; split; [reflexivity | exact H]);
    right; right; split; try reflexivity; lra.
Qed.

Lemma compareFn_trans (a b c : RetrievalResult) :
  JS.before (compareFn query) a b -> JS.before (compareFn query) b c ->
  JS.before (compareFn query) a c.
Proof.
  rewrite !compareFn_before.
  destruct (containsQuery query a), (containsQuery query b),
    (containsQuery query c);
    intros [[H1 H2]|[H1 H2]] [[H3 H4]|[H3 H4]]; try discriminate;
    try (left; split; reflexivity);
    right; split; try reflexivity; lra.
Qed.

Lemma tied_before (x a b : RetrievalResult) :
  tied query x a = true -> tied query x b = true ->
  JS.before (compareFn query) a b.
Proof.
  unfold tied. rewrite !andb_true_iff.
  intros [Ca Sa] [Cb Sb].
  apply Bool.eqb_prop in Ca, Cb. apply Qeq_bool_iff in Sa, Sb.
  apply compareFn_before. right. split; [congruence | lra].
Qed.

(** The early return on short arrays agrees with sorting them. *)
Lemma rerankResults_sort (results : list RetrievalResult) :
  rerankResults query results = JS.sort (compareFn query) results.
Proof.
  unfold rerankResults.
  destruct results as [|a [|b rest]]; reflexivity.
Qed.

Lemma rerankResults_perm (results : list RetrievalResult) :
  Permutation results (rerankResults query results).
Proof. rewrite rerankResults_sort. apply sort_perm. Qed.

End Rerank.

Section RerankClaim.

Import AdvancedPrompting Stated.

(** C6: [rerankResults q results] reorders [results] (it is a permutation
    of them) so that no result lacking [q] stands in front of one
    containing it (case-insensitively), so that among results of equal
    containment status the scores, a missing one counting as 0, descend, and
    so that results tied on both keep their input order. *)
Theorem rerankResults_stable_order
    (q : string) (results : list RetrievalResult) :
  Permutation results (rerankResults q results)
  /\ (forall l1 a l2 b l3,
        rerankResults q results = (l1 ++ a :: l2 ++ b :: l3)%list ->
        (containsQuery q b = true -> containsQuery q a = true)
        /\ (containsQuery q a = containsQuery q b ->
            (scoreOrZero b <= scoreOrZero a)%Q))
  /\ (forall x,
        List.filter (tied q x) (rerankResults q results)
        = List.filter (tied q x) results).
Proof.
  split; [apply rerankResults_perm|]. split.
  - intros l1 a l2 b l3 E.
    assert (H : JS.before (compareFn q) a b).
    { eapply sorted_pairs; [|exact E].
      rewrite rerankResults_sort.
      apply sort_sorted; [apply compareFn_total | apply compareFn_trans]. }
    apply compareFn_before in H. destruct H as [[Ha Hb]|[Hab Hs]].
    + split; [intros _; exact Ha | intros Hc; congruence].
    + split; [intros Hb; congruence | intros _; exact Hs].
  - intros x. rewrite rerankResults_sort. apply filter_sort.
    intros a b. apply tied_before.
Qed.

Lemma rerankResults_stable_order_witness :
  rerankResults "rag"
    [doc "about cats" (Some (5 # 10)); doc "About RAG" None;
     doc "about dogs" (Some (5 # 10)); doc "rag intro" (Some (3 # 10))]
  = [doc "rag intro" (Some (3 # 10)); doc "About RAG" None;
     doc "about cats" (Some (5 # 10)); doc "about dogs" (Some (5 # 10))]
  /\ (containsQuery "rag" (doc "about cats" (Some (5 # 10))) = true ->
      containsQuery "rag" (doc "About RAG" None) = true)
  /\ (containsQuery "rag" (doc "rag intro" (Some (3 # 10)))
      = containsQuery "rag" (doc "About RAG" None) ->
      (scoreOrZero (doc "About RAG" None)
       <= scoreOrZero (doc "rag intro" (Some (3 # 10))))%Q).
Proof.
  split; [reflexivity|]. split.
  - apply (proj1 (proj2 (rerankResults_stable_order "rag"
        [doc "about cats" (Some (5 # 10)); doc "About RAG" None;
         doc "about dogs" (Some (5 # 10)); doc "rag intro" (Some (3 # 10))]))
      [doc "rag intro" (Some (3 # 10))] (doc "About RAG" None) []
      (doc "about cats" (Some (5 # 10))) [doc "about dogs" (Some (5 # 10))]).
    reflexivity.
  - apply (proj1 (proj2 (rerankResults_stable_order "rag"
        [doc "about cats" (Some (5 # 10)); doc "About RAG" None;
         doc "about dogs" (Some (5 # 10)); doc "rag intro" (Some (3 # 10))]))
      [] (doc "rag intro" (Some (3 # 10))) [] (doc "About RAG" None)
      [doc "about cats" (Some (5 # 10)); doc "about dogs" (Some (5 # 10))]).
    reflexivity.
Defined.

End RerankClaim.

(* ------------------------------------------------------------------ *)
(** ** The retrieval client *)

Section Dedup.

Import RagieClient.

Lemma seen_has (h : string) (seen : list string) :
  existsb (String.eqb h) seen = true <-> In h seen.
Proof.
  rewrite existsb_exists. split.
  - intros [x [Hx E]]. apply String.eqb_eq in E. now subst.
  - intros H. exists h. split; [exact H | apply String.eqb_refl].
Qed.

Lemma dedupFrom_fresh (seen : list string) (results : list RetrievalResult)
    (r : RetrievalResult) :
  In r (dedupFrom seen results) -> ~ In (contentHash r) seen.
Proof.
  revert seen. induction results as [|x rest IH]; intros seen; simpl.
  - tauto.
  - destruct (existsb (String.eqb (contentHash x)) seen) eqn:E.
    + apply IH.
    + intros [<- | H].
      * intros Hin. apply seen_has in Hin. congruence.
      * intros Hin. apply (IH _ H). now right.
Qed.

Lemma dedupFrom_NoDup (seen : list string) (results : list RetrievalResult) :
  NoDup (map contentHash (dedupFrom seen results)).
Proof.
  revert seen. induction results as [|x rest IH]; intros seen; simpl.
  - constructor.
  - destruct (existsb (String.eqb (contentHash x)) seen).
    + apply IH.
    + simpl. constructor; [|apply IH].
      intros Hin. apply in_map_iff in Hin. destruct Hin as [y [Ey Hy]].
      apply dedupFrom_fresh in Hy. apply Hy. left. now symmetry.
Qed.

(** A survivor is the first result of the input carrying its hash. *)
Lemma dedupFrom_first (seen : list string) (results : list RetrievalResult)
    (r : RetrievalResult) :
  In r (dedupFrom seen results) ->
  exists l1 l2, results = (l1 ++ r :: l2)%list
                /\ ~ In (contentHash r) (map contentHash l1).
Proof.
  revert seen. induction results as [|x rest IH]; intros seen; simpl.
  - tauto.
  - destruct (existsb (String.eqb (contentHash x)) seen) eqn:E.
    + intros H. pose proof (dedupFrom_fresh _ _ _ H) as Hf.
      destruct (IH _ H) as [l1 [l2 [-> Hn]]].
      exists (x :: l1), l2. split; [reflexivity|].
      simpl. intros [Hx | Hx]; [|tauto].
      apply Hf. apply seen_has. now rewrite <- Hx.
    + intros [<- | H].
      * exists [], rest. split; [reflexivity | simpl; tauto].
      * pose proof (dedupFrom_fresh _ _ _ H) as Hf.
        destruct (IH _ H) as [l1 [l2 [-> Hn]]].
        exists (x :: l1), l2. split; [reflexivity|].
        simpl. intros [Hx | Hx]; [|tauto].
        apply Hf. now left.
Qed.

Lemma sliceTo_firstn {A} (k : Z) (l : list A) :
  exists n, JS.sliceTo k l = firstn n l.
Proof. unfold JS.sliceTo. destruct (0 <=? k)%Z; eauto. Qed.

Lemma sliceTo_length {A} (k : Z) (l : list A) :
  (0 <= k)%Z -> (Z.of_nat (List.length (JS.sliceTo k l)) <= k)%Z.
Proof.
  intros Hk. unfold JS.sliceTo.
  destruct (Z.leb_spec 0 k); [|lia].
  rewrite length_firstn. lia.
Qed.

Lemma sliceTo_all {A} (k : Z) (l : list A) :
  (Z.of_nat (List.length l) <= k)%Z -> JS.sliceTo k l = l.
Proof.
  intros Hk. unfold JS.sliceTo.
  destruct (Z.leb_spec 0 k); [|lia].
  apply firstn_all2. lia.
Qed.

Lemma firstn_In {A} (n : nat) (l : list A) (x : A) :
  In x (firstn n l) -> In x l.
Proof.
  intros H. rewrite <- (firstn_skipn n l). apply in_or_app. now left.
Qed.

Lemma firstn_NoDup_map {A B} (f : A -> B) (n : nat) (l : list A) :
  NoDup (map f l) -> NoDup (map f (firstn n l)).
Proof.
  intros H. rewrite <- (firstn_skipn n l), map_app in H.
  now apply NoDup_app_remove_r in H.
Qed.

Lemma mapItems_some {B} (f : RawResult -> B) (items : list RawResult) :
  mapItems f (map Some items) = Some (map f items).
Proof.
  induction items as [|x rest IH]; simpl; [reflexivity | now rewrite IH].
Qed.

End Dedup.

Section Retrieval.

Import AdvancedPrompting RagieClient Stated.

(** When the body of the [try] completes, its pipeline is the result. *)
Lemma retrieveContext_on_try (sdk : option Client) (o : RetrievalOptions)
    (all : list RetrievalResult) :
  combined sdk o = Some all ->
  retrieveContext sdk o
  = JS.sliceTo (topKOf o)
      (rerankResults (query o) (removeDuplicateResults all)).
Proof.
  unfold combined, retrieveContext, tryRetrieve, topKOf, filterOf,
    includeMetadataOf.
  now intros ->.
Qed.

(** When it throws, the mock data for the query is the result. *)
Lemma retrieveContext_on_catch (sdk : option Client) (o : RetrievalOptions) :
  combined sdk o = None ->
  retrieveContext sdk o = fallbackResults (includeMetadataOf o) (query o).
Proof.
  unfold combined, retrieveContext, tryRetrieve, topKOf, filterOf,
    includeMetadataOf.
  now intros ->.
Qed.

Lemma combined_of_answers (sdk : option Client) (o : RetrievalOptions)
    (main expansion : list RawResult) :
  mainAnswer sdk o = Array (map Some main) ->
  expansionAnswer sdk o = Array (map Some expansion) ->
  combined sdk o
  = Some (map (formatMain (includeMetadataOf o)) main
          ++ map (formatExpansion (includeMetadataOf o)) expansion)%list.
Proof.
  unfold mainAnswer, expansionAnswer, combined, allResults.
  intros -> ->. cbn [mapValue]. now rewrite !mapItems_some.
Qed.

(** The try path respects the cap. *)
Lemma retrieveContext_capped_on_try (sdk : option Client)
    (o : RetrievalOptions) (all : list RetrievalResult) :
  combined sdk o = Some all -> (0 <= topKOf o)%Z ->
  (Z.of_nat (List.length (retrieveContext sdk o)) <= topKOf o)%Z.
Proof.
  intros H Hk. rewrite (retrieveContext_on_try _ _ _ H).
  now apply sliceTo_length.
Qed.

Lemma getMockRetrievalResults_length (q : string) :
  (List.length (getMockRetrievalResults q) <= 3)%nat.
Proof.
  unfold getMockRetrievalResults.
  destruct (JS.includes (JS.toLowerCase q) "weather"); [simpl; lia|].
  destruct (JS.includes (JS.toLowerCase q) "document"
            || JS.includes (JS.toLowerCase q) "artifact"); [simpl; lia|].
  pose proof (sliceTo_length 3
                (List.filter (kbMatches (JS.toLowerCase q)) mockKb)) as H.
  lia.
Qed.

(** The catch path returns up to three entries whatever [topK] is. *)
Lemma retrieveContext_on_catch_length (sdk : option Client)
    (o : RetrievalOptions) :
  combined sdk o = None ->
  (List.length (retrieveContext sdk o) <= 3)%nat.
Proof.
  intros H. rewrite (retrieveContext_on_catch _ _ H).
  unfold fallbackResults. rewrite length_map.
  apply getMockRetrievalResults_length.
Qed.

(** C3: with [topK] 1 and a backend whose [retrieve] resolves to something
    that is no array, the outer [catch] hands back the three mock entries
    for the query: more than [topK]. *)
Theorem retrieveContext_catch_exceeds_topK :
  combined (Some (constantClient NotAnArray)) (optionsFor "rag" (Some 1%Z))
  = None
  /\ List.length
       (retrieveContext (Some (constantClient NotAnArray))
          (optionsFor "rag" (Some 1%Z)))
     = 3%nat
  /\ ~ (Z.of_nat
          (List.length
             (retrieveContext (Some (constantClient NotAnArray))
                (optionsFor "rag" (Some 1%Z))))
        <= topKOf (optionsFor "rag" (Some 1%Z)))%Z.
Proof.
  split; [reflexivity|]. split; [reflexivity|].
  vm_compute. intros H. now apply H.
Qed.

(** C4 as stated fails: for the query "vector" and no SDK the output is the
    deduplicated list reordered, not a prefix of it. *)
Lemma retrieveContext_not_prefix_of_deduplicated :
  exists all,
    combined None (optionsFor "vector" None) = Some all
    /\ map sourceOf (prefixOfDeduplicated 3 all)
       = ["RAG Documentation"; "RAG Architecture Guide";
          "RAG Implementation Guide"]
    /\ map sourceOf (retrieveContext None (optionsFor "vector" None))
       = ["RAG Architecture Guide"; "RAG Implementation Guide";
          "RAG Documentation"]
    /\ retrieveContext None (optionsFor "vector" None)
       <> prefixOfDeduplicated 3 all.
Proof.
  eexists. split; [vm_compute; reflexivity|].
  split; [vm_compute; reflexivity|].
  split; [vm_compute; reflexivity|].
  intros E. apply (f_equal (map sourceOf)) in E. vm_compute in E.
  discriminate E.
Qed.

Lemma in_hashes (h : string) (earlier : list RetrievalResult) :
  existsb (fun e => contentHash e =? h) earlier = true
  <-> In h (map contentHash earlier).
Proof.
  rewrite existsb_exists, in_map_iff. split.
  - intros [e [He E]]. apply String.eqb_eq in E. now exists e.
  - intros [e [E He]]. exists e. split; [exact He | now apply String.eqb_eq].
Qed.

(** The loop with its set [seen] keeps exactly the first occurrences, in
    the order of the input. *)
Lemma dedupFrom_firstOccurrences (seen : list string)
    (earlier results : list RetrievalResult) :
  (forall h, In h seen <-> In h (map contentHash earlier)) ->
  dedupFrom seen results = firstOccurrencesAfter earlier results.
Proof.
  revert seen earlier.
  induction results as [|r rest IH]; intros seen earlier Hs; [reflexivity|].
  cbn [dedupFrom firstOccurrencesAfter].
  assert (E : existsb (String.eqb (contentHash r)) seen
              = existsb (fun e => contentHash e =? contentHash r) earlier).
  { apply eq_true_iff_eq. rewrite seen_has, in_hashes. apply Hs. }
  rewrite <- E.
  destruct (existsb (String.eqb (contentHash r)) seen) eqn:Er.
  - apply IH. intros h. rewrite map_app, in_app_iff, <- Hs. cbn [map In].
    apply seen_has in Er. split; [tauto|].
    intros [H | [<- | []]]; assumption.
  - f_equal. apply IH. intros h.
    rewrite map_app, in_app_iff, <- Hs. cbn [map In]. tauto.
Qed.

Lemma removeDuplicateResults_firstOccurrences
    (results : list RetrievalResult) :
  removeDuplicateResults results = firstOccurrences results.
Proof.
  apply dedupFrom_firstOccurrences. intros h. simpl. tauto.
Qed.

(** The expansion score is the double product: 0.92 * 0.8 is
    0.7360000000000001, above a main score of 0.736, so the expansion
    result is ranked first. *)
Lemma expansion_product_is_rounded :
  map content
    (rerankResults "anything"
       [formatMain true (rawScored "main" (736 # 1000));
        formatExpansion true (rawScored "expansion" (92 # 100))])
  = ["expansion"; "main"].
Proof. vm_compute. reflexivity. Qed.

(** C4, amended: when both backend calls resolve to arrays of results, the
    output is the main results followed by the expansion results,
    deduplicated (a result is kept exactly when no earlier one has its key,
    the kept ones in their order), then reranked by [rerankResults], then
    cut to [topK]: for a [topK] that is not negative, the first [topK]
    entries of the reranked list. *)
Theorem retrieveContext_pipeline (sdk : option Client) (o : RetrievalOptions)
    (main expansion : list RawResult) :
  mainAnswer sdk o = Array (map Some main) ->
  expansionAnswer sdk o = Array (map Some expansion) ->
  retrieveContext sdk o
  = JS.sliceTo (topKOf o)
      (rerankResults (query o)
         (firstOccurrences
            (map (formatMain (includeMetadataOf o)) main
             ++ map (formatExpansion (includeMetadataOf o)) expansion)%list))
  /\ ((0 <= topKOf o)%Z ->
      retrieveContext sdk o
      = firstn (Z.to_nat (topKOf o))
          (rerankResults (query o)
             (firstOccurrences
                (map (formatMain (includeMetadataOf o)) main
                 ++ map (formatExpansion (includeMetadataOf o))
                      expansion)%list))).
Proof.
  intros Hm He.
  rewrite (retrieveContext_on_try _ _ _ (combined_of_answers _ _ _ _ Hm He)).
  rewrite removeDuplicateResults_firstOccurrences.
  split; [reflexivity|].
  intros Hk. unfold JS.sliceTo.
  destruct (Z.leb_spec 0 (topKOf o)); [reflexivity | lia].
Qed.

Lemma retrieveContext_pipeline_witness :
  retrieveContext None (optionsFor "vector" None)
  = firstn 3
      (rerankResults "vector"
         (firstOccurrences
            (map (formatMain true)
               (map ofKbEntry (getMockRetrievalResults "vector"))
             ++ map (formatExpansion true)
                  (map ofKbEntry (getMockRetrievalResults "what is vector")))%list)).
Proof.
  apply (proj2 (retrieveContext_pipeline None (optionsFor "vector" None)
                  (map ofKbEntry (getMockRetrievalResults "vector"))
                  (map ofKbEntry (getMockRetrievalResults "what is vector"))
                  eq_refl eq_refl)).
  vm_compute. discriminate.
Defined.

End Retrieval.

Section Deduplication.

Import AdvancedPrompting RagieClient Stated.

(** C5 as stated fails: the two documents have the same first 100
    characters once trimmed and lower-cased, yet both are returned, because
    the code cuts to 100 characters before it trims. *)
Lemma retrieveContext_keeps_both_trimmed_first_equals :
  exists all a b,
    combined (Some (constantClient (Array [Some paddedDoc; Some plainDoc])))
      (optionsFor "anything" None) = Some all
    /\ nth_error all 0 = Some a
    /\ nth_error all 1 = Some b
    /\ keyTrimmedFirst a = keyTrimmedFirst b
    /\ contentHash a <> contentHash b
    /\ retrieveContext
         (Some (constantClient (Array [Some paddedDoc; Some plainDoc])))
         (optionsFor "anything" None)
       = [a; b].
Proof.
  eexists. eexists. eexists.
  split; [vm_compute; reflexivity|].
  split; [reflexivity|]. split; [reflexivity|].
  split; [vm_compute; reflexivity|].
  split; [vm_compute; discriminate|].
  vm_compute. reflexivity.
Qed.

(** C5, amended: the duplicate key is the first 100 characters of the
    content, then trimmed and lower-cased.  When the combined list is
    built, no two results of the output share a key, and every result of
    the output is the first one of the combined list with its key. *)
Theorem retrieveContext_first_of_each_hash (sdk : option Client)
    (o : RetrievalOptions) (all : list RetrievalResult) :
  combined sdk o = Some all ->
  (forall r, contentHash r
             = JS.toLowerCase (JS.trim (JS.slice0 100 (content r))))
  /\ NoDup (map contentHash (retrieveContext sdk o))
  /\ (forall r, In r (retrieveContext sdk o) ->
        exists l1 l2, all = (l1 ++ r :: l2)%list
                      /\ ~ In (contentHash r) (map contentHash l1)).
Proof.
  intros H. rewrite (retrieveContext_on_try _ _ _ H).
  destruct (sliceTo_firstn (topKOf o)
              (rerankResults (query o) (removeDuplicateResults all)))
    as [n ->].
  split; [reflexivity|]. split.
  - apply firstn_NoDup_map.
    eapply Permutation_NoDup.
    + apply Permutation_map, rerankResults_perm.
    + apply dedupFrom_NoDup.
  - intros r Hr. apply firstn_In in Hr.
    apply (Permutation_in _ (Permutation_sym (rerankResults_perm _ _))) in Hr.
    now apply dedupFrom_first in Hr.
Qed.

Lemma retrieveContext_first_of_each_hash_witness :
  NoDup (map contentHash (retrieveContext None (optionsFor "vector" None))).
Proof.
  eapply (retrieveContext_first_of_each_hash None (optionsFor "vector" None)).
  vm_compute. reflexivity.
Defined.

End Deduplication.

(* ------------------------------------------------------------------ *)
(** ** Formatting the context *)

Section Formatting.

Import RagieClient Stated.

Lemma mapi_from_ext {A B} (f g : A -> nat -> B) (l : list A) (i : nat) :
  Forall (fun x => forall j, f x j = g x j) l ->
  JS.mapi_from i f l = JS.mapi_from i g l.
Proof.
  intros H. revert i. induction H as [|x l Hx _ IH]; intros i; simpl.
  - reflexivity.
  - now rewrite Hx, IH.
Qed.

Lemma formatRetrievedContext_join (rs : list RetrievalResult) :
  formatRetrievedContext rs = JS.join blankLine (JS.mapi formatOne rs).
Proof. destruct rs; reflexivity. Qed.

Lemma formatOne_amended (r : RetrievalResult) (index : nat) :
  formatOne r index = renderAmended r index.
Proof.
  unfold formatOne, metadataString, renderAmended, documentLines,
    sourceLine, relevanceLine, JS.orStr.
  destruct (metadata r) as [md|]; cbn [JS.join].
  - destruct (score r) as [sc|]; cbn [JS.join];
      destruct (source md) as [src|]; destruct (date md) as [d|];
      try destruct (src =? ""); try destruct (d =? "");
      rewrite ?append_assoc, ?append_nil_r; reflexivity.
  - now rewrite !append_assoc, append_nil_r.
Qed.

Lemma renderAmended_described (r : RetrievalResult) (index : nat)
    (s d : string) (sc : Q) :
  described r = Some (s, d, sc) ->
  renderAmended r index = documentAsStated (index + 1) (content r) s d sc.
Proof.
  unfold described, renderAmended, documentLines, sourceLine, relevanceLine,
    documentAsStated.
  destruct (metadata r) as [md|]; [|discriminate].
  destruct (score r) as [sc'|]; [|discriminate].
  destruct (source md) as [s'|]; [|discriminate].
  destruct (date md) as [d'|]; [|discriminate].
  destruct (s' =? ""); [discriminate|].
  destruct (d' =? ""); [discriminate|].
  cbn [orb]. intros [= <- <- <-]. cbn [JS.join].
  now rewrite !append_assoc.
Qed.

Lemma renderAmended_bare (r : RetrievalResult) (index : nat) :
  metadata r = None -> renderAmended r index = renderBare r index.
Proof.
  unfold renderAmended, documentLines, renderBare. intros ->.
  cbn [JS.join]. now rewrite !append_assoc.
Qed.

(** C7 as stated fails: a result without metadata is rendered without a
    Source line and without a Relevance line. *)
Lemma formatRetrievedContext_without_metadata :
  formatRetrievedContext [doc "text" (Some (9 # 10))]
  = "[Document 1]:" ++ JS.nl ++ "text"
  /\ JS.includes (formatRetrievedContext [doc "text" (Some (9 # 10))])
       "Source:" = false
  /\ JS.includes (formatRetrievedContext [doc "text" (Some (9 # 10))])
       "Relevance:" = false.
Proof. repeat split; vm_compute; reflexivity. Qed.

(** C7, amended: [formatRetrievedContext] returns the empty string for the
    empty list, and for every list the results rendered in order and joined
    by blank lines, each as the lines "[Document N]:" and the content,
    followed, only when the result has metadata, by the line
    "Source: <source, or Unknown>" with " (<date>)" appended when the date
    is not empty, and then, only when the score is defined, by the line
    "Relevance: <score*100 rounded>%", the product being the double one.
    So a result with a non-empty source and date and a score is rendered
    as C7 says, and a result without metadata as its heading and content
    only. *)
Theorem formatRetrievedContext_rendering :
  formatRetrievedContext [] = ""
  /\ (forall rs,
        formatRetrievedContext rs
        = JS.join blankLine (JS.mapi renderAmended rs))
  /\ (forall r index s d sc,
        described r = Some (s, d, sc) ->
        renderAmended r index
        = documentAsStated (index + 1) (content r) s d sc)
  /\ (forall r index,
        metadata r = None -> renderAmended r index = renderBare r index).
Proof.
  split; [reflexivity|]. split; [|split].
  - intros rs. rewrite formatRetrievedContext_join. unfold JS.mapi. f_equal.
    apply mapi_from_ext. apply Forall_forall. intros r _ j.
    apply formatOne_amended.
  - apply renderAmended_described.
  - apply renderAmended_bare.
Qed.

Lemma formatRetrievedContext_rendering_witness :
  formatRetrievedContext
    (retrieveContext None (optionsFor "weather forecast" (Some 2%Z)))
  = JS.join blankLine
      [ documentAsStated 1
          "The weather system integration allows chatbots to retrieve current weather information for a specific location. This provides real-time, accurate weather data to users."
          "Weather API Integration Guide" "2024-01-10" (95 # 100);
        documentAsStated 2
          "Weather data can be accessed through various APIs like OpenWeatherMap, WeatherAPI, or government meteorological services. Most provide current conditions, forecasts, and historical data."
          "API Documentation" "2023-11-20" (88 # 100) ]
  /\ renderAmended docScored285 0
     = documentAsStated 1 "text" "Notes" "2024-01-01" (285 # 1000).
Proof.
  split.
  - rewrite (proj1 (proj2 formatRetrievedContext_rendering)).
    vm_compute. reflexivity.
  - apply (proj1 (proj2 (proj2 formatRetrievedContext_rendering))
             docScored285 0%nat "Notes" "2024-01-01" (285 # 1000)).
    reflexivity.
Defined.

(** The relevance is rounded from the double product: 0.285 * 100 is
    28.499999999999996 and prints as 28. *)
Lemma relevance_of_0285 :
  formatRetrievedContext [docScored285]
  = JS.join JS.nl
      [ "[Document 1]:"; "text"; "Source: Notes (2024-01-01)";
        "Relevance: 28%" ].
Proof. vm_compute. reflexivity. Qed.

(** A non-empty list never formats to the empty string. *)
Lemma formatRetrievedContext_empty_iff (rs : list RetrievalResult) :
  formatRetrievedContext rs = "" <-> rs = [].
Proof.
  split; [|intros ->; reflexivity].
  destruct rs as [|r rest]; [reflexivity|].
  unfold formatRetrievedContext, JS.mapi. cbn [JS.mapi_from JS.join].
  destruct (JS.mapi_from 1 formatOne rest); discriminate.
Qed.

End Formatting.

(* ------------------------------------------------------------------ *)
(** ** The orchestrator *)

Section Orchestration.

Import AdvancedPrompting RagieClient PromptEngineering Stated.

Variable RequestHints : Type.

(** C1: [enhancePromptWithRAG] returns the system prompt itself when the
    history has no user message, when the text of the last user message is
    empty, when [getRagConfig] disables retrieval for it, when
    [retrieveContext] returns no result, and when the formatted context is
    empty. *)
Theorem enhancePromptWithRAG_short_circuits
    (sdk : option Client) (systemPrompt : string)
    (messages : list UIMessage) (hints : RequestHints) (model : string) :
  (lastUserMessage messages = None ->
     enhancePromptWithRAG sdk systemPrompt messages hints model = systemPrompt)
  /\ (forall m, lastUserMessage messages = Some m ->
        extractQueryFromMessage m = "" ->
        enhancePromptWithRAG sdk systemPrompt messages hints model
        = systemPrompt)
  /\ (forall m, lastUserMessage messages = Some m ->
        Config.enabled
          (Config.getRagConfig (extractQueryFromMessage m) model) = false ->
        enhancePromptWithRAG sdk systemPrompt messages hints model
        = systemPrompt)
  /\ (forall m, lastUserMessage messages = Some m ->
        retrieveContext sdk
          (retrievalOptionsOf (extractQueryFromMessage m)
             (Config.getRagConfig (extractQueryFromMessage m) model)) = [] ->
        enhancePromptWithRAG sdk systemPrompt messages hints model
        = systemPrompt)
  /\ (forall m, lastUserMessage messages = Some m ->
        formatRetrievedContext
          (retrieveContext sdk
             (retrievalOptionsOf (extractQueryFromMessage m)
                (Config.getRagConfig (extractQueryFromMessage m) model)))
        = "" ->
        enhancePromptWithRAG sdk systemPrompt messages hints model
        = systemPrompt).
Proof.
  unfold enhancePromptWithRAG.
  split; [intros ->; reflexivity|].
  split; [intros m -> ->; reflexivity|].
  split; [intros m -> ->; simpl;
          destruct (extractQueryFromMessage m =? ""); reflexivity|].
  split.
  - intros m -> ->. simpl.
    destruct (extractQueryFromMessage m =? ""); [reflexivity|].
    destruct (negb _); reflexivity.
  - intros m -> ->. simpl.
    destruct (extractQueryFromMessage m =? ""); [reflexivity|].
    destruct (negb _); [reflexivity|].
    destruct (isEmpty _); reflexivity.
Qed.

End Orchestration.

Section OrchestrationWitnesses.

Import AdvancedPrompting RagieClient PromptEngineering Stated.

Lemma enhancePromptWithRAG_short_circuits_witness :
  enhancePromptWithRAG None "Be brief." [] tt defaultChatModel = "Be brief."
  /\ enhancePromptWithRAG None "Be brief." [userSays ""] tt defaultChatModel
     = "Be brief."
  /\ enhancePromptWithRAG None "Be brief." [userSays "hello"] tt
       defaultChatModel = "Be brief."
  /\ enhancePromptWithRAG (Some (constantClient (Array []))) "Be brief."
       [userSays "what is RAG?"] tt defaultChatModel = "Be brief."
  /\ enhancePromptWithRAG (Some (constantClient (Array []))) "Be brief."
       [userSays "tell me more"] tt defaultChatModel = "Be brief.".
Proof.
  split; [|split; [|split; [|split]]].
  - apply (proj1 (enhancePromptWithRAG_short_circuits unit None "Be brief."
                    [] tt defaultChatModel)).
    reflexivity.
  - apply (proj1 (proj2 (enhancePromptWithRAG_short_circuits unit None
                           "Be brief." [userSays ""] tt defaultChatModel))
             (userSays "")); reflexivity.
  - apply (proj1 (proj2 (proj2 (enhancePromptWithRAG_short_circuits unit None
                           "Be brief." [userSays "hello"] tt
                           defaultChatModel)))
             (userSays "hello")); reflexivity.
  - apply (proj1 (proj2 (proj2 (proj2 (enhancePromptWithRAG_short_circuits
                           unit (Some (constantClient (Array [])))
                           "Be brief." [userSays "what is RAG?"] tt
                           defaultChatModel))))
             (userSays "what is RAG?")); reflexivity.
  - apply (proj2 (proj2 (proj2 (proj2 (enhancePromptWithRAG_short_circuits
                           unit (Some (constantClient (Array [])))
                           "Be brief." [userSays "tell me more"] tt
                           defaultChatModel))))
             (userSays "tell me more")); reflexivity.
Defined.

End OrchestrationWitnesses.

Section Enhancement.

Import AdvancedPrompting RagieClient PromptEngineering Stated.

Variable RequestHints : Type.

Lemma createEnhancedRAGPrompt_shape (basePrompt userQuery context : string) :
  exists rest,
    createEnhancedRAGPrompt basePrompt userQuery context
    = basePrompt ++ JS.nl ++ JS.nl ++ "RETRIEVED CONTEXT:" ++ JS.nl ++ rest.
Proof.
  unfold createEnhancedRAGPrompt, contextHeader.
  eexists. rewrite !append_assoc. reflexivity.
Qed.

(** The only way out of [enhancePromptWithRAG] besides the prompt itself. *)
Lemma enhancePromptWithRAG_cases (sdk : option Client) (systemPrompt : string)
    (messages : list UIMessage) (hints : RequestHints) (model : string) :
  enhancePromptWithRAG sdk systemPrompt messages hints model = systemPrompt
  \/ exists queryText context,
       enhancePromptWithRAG sdk systemPrompt messages hints model
       = createEnhancedRAGPrompt systemPrompt queryText context.
Proof.
  unfold enhancePromptWithRAG.
  destruct (lastUserMessage messages) as [m|]; [|now left].
  destruct (extractQueryFromMessage m =? ""); [now left|].
  destruct (negb _); [now left|].
  destruct (isEmpty _); [now left|].
  destruct (_ =? ""); [now left|].
  right. eauto.
Qed.

(** C9: the string returned by [enhancePromptWithRAG] is the system prompt
    itself, or the system prompt, unaltered, as a proper prefix followed at
    once by a blank line and the line "RETRIEVED CONTEXT:". *)
Theorem enhancePromptWithRAG_keeps_prompt
    (sdk : option Client) (systemPrompt : string)
    (messages : list UIMessage) (hints : RequestHints) (model : string) :
  enhancePromptWithRAG sdk systemPrompt messages hints model = systemPrompt
  \/ (exists rest,
        enhancePromptWithRAG sdk systemPrompt messages hints model
        = systemPrompt ++ JS.nl ++ JS.nl ++ "RETRIEVED CONTEXT:" ++ JS.nl
            ++ rest)
     /\ (String.length systemPrompt
         < String.length
             (enhancePromptWithRAG sdk systemPrompt messages hints model))%nat.
Proof.
  destruct (enhancePromptWithRAG_cases sdk systemPrompt messages hints model)
    as [E | [q [ctx E]]]; [now left|].
  right. rewrite E.
  destruct (createEnhancedRAGPrompt_shape systemPrompt q ctx) as [rest R].
  split; [now exists rest|].
  rewrite R, append_length. simpl. lia.
Qed.

(** When retrieval is enabled and yields results, the prompt is enhanced. *)
Lemma enhancePromptWithRAG_enhances (sdk : option Client)
    (systemPrompt : string) (messages : list UIMessage)
    (hints : RequestHints) (model : string) (m : UIMessage)
    (results : list RetrievalResult) :
  lastUserMessage messages = Some m ->
  extractQueryFromMessage m <> "" ->
  Config.enabled (Config.getRagConfig (extractQueryFromMessage m) model)
  = true ->
  retrieveContext sdk
    (retrievalOptionsOf (extractQueryFromMessage m)
       (Config.getRagConfig (extractQueryFromMessage m) model)) = results ->
  results <> [] ->
  enhancePromptWithRAG sdk systemPrompt messages hints model
  = createEnhancedRAGPrompt systemPrompt (extractQueryFromMessage m)
      (formatRetrievedContext results).
Proof.
  intros Hm Hq He Hr Hn. unfold enhancePromptWithRAG.
  rewrite Hm. apply String.eqb_neq in Hq. rewrite Hq, He, Hr. cbn [negb].
  destruct results as [|r rest]; [congruence|]. cbn [isEmpty].
  destruct (String.eqb_spec (formatRetrievedContext (r :: rest)) "") as [E|_];
    [|reflexivity].
  apply formatRetrievedContext_empty_iff in E. discriminate.
Qed.

Lemma createEnhancedRAGPrompt_mentions_context
    (basePrompt userQuery context : string) :
  JS.includes (createEnhancedRAGPrompt basePrompt userQuery context)
    "RETRIEVED CONTEXT" = true.
Proof.
  destruct (createEnhancedRAGPrompt_shape basePrompt userQuery context)
    as [rest ->].
  apply includes_spec.
  exists (basePrompt ++ JS.nl ++ JS.nl), (":" ++ JS.nl ++ rest).
  now rewrite !append_assoc.
Qed.

End Enhancement.

(* ------------------------------------------------------------------ *)
(** ** "what is RAG?" without a backend *)

Section Fallback.

Import AdvancedPrompting RagieClient PromptEngineering Stated.

Lemma unavailable_safeRetrieve (sdk : option Client) (f : Config.Filter)
    (im : bool) (q : string) (k : Z) :
  Unavailable sdk ->
  safeRetrieve (initRagieClient sdk) f im q k = mockValue q.
Proof.
  intros [ | | r s Hr | g Hg]; unfold safeRetrieve; simpl;
    try rewrite Hr; try rewrite Hg; reflexivity.
Qed.

Lemma mockValue_array (q : string) :
  mockValue q = Array (map Some (map ofKbEntry (getMockRetrievalResults q))).
Proof. unfold mockValue. now rewrite map_map. Qed.

(** C8 as stated fails: with no SDK the results for "what is RAG?" are the
    first three knowledge-base entries; the second one has no "rag" in its
    source, and three entries whose source has it are left out. *)
Lemma what_is_RAG_fallback_not_by_source :
  map sourceOf (retrieveContext None (optionsFor "what is RAG?" (Some 5%Z)))
  = ["RAG Documentation"; "AI Best Practices Guide"; "RAG Architecture Guide"]
  /\ JS.includes (JS.toLowerCase "AI Best Practices Guide") "rag" = false
  /\ map kb_source
       (List.filter
          (fun e => JS.includes (JS.toLowerCase (kb_source e)) "rag") mockKb)
     = ["RAG Documentation"; "RAG Architecture Guide";
        "RAG Implementation Guide"; "Ragie SDK Documentation";
        "RAG Best Practices"; "Prompt Engineering for RAG"].
Proof. repeat split; vm_compute; reflexivity. Qed.

(** C8, amended: when the backend is unavailable and the query is
    "what is RAG?", [retrieveContext] (with [topK] at least 3) returns the
    first three entries of the fallback knowledge base, as main-query
    results: the query itself contains "rag", so every entry passes the
    filter; and [enhancePromptWithRAG] on a history whose last user message
    is that query returns a string containing "RETRIEVED CONTEXT". *)
Theorem what_is_RAG_backend_unavailable (sdk : option Client) :
  Unavailable sdk ->
  (forall o, query o = "what is RAG?" -> (3 <= topKOf o)%Z ->
     retrieveContext sdk o
     = map (formatMain (includeMetadataOf o))
         (map ofKbEntry (firstn 3 mockKb)))
  /\ (forall (RequestHints : Type) systemPrompt messages
             (hints : RequestHints) model m,
        lastUserMessage messages = Some m ->
        extractQueryFromMessage m = "what is RAG?" ->
        JS.includes
          (enhancePromptWithRAG sdk systemPrompt messages hints model)
          "RETRIEVED CONTEXT" = true).
Proof.
  intros U.
  assert (R : forall o, query o = "what is RAG?" -> (3 <= topKOf o)%Z ->
     retrieveContext sdk o
     = map (formatMain (includeMetadataOf o))
         (map ofKbEntry (firstn 3 mockKb))).
  { intros o Hq Hk.
    assert (Hm : mainAnswer sdk o
                 = Array (map Some
                            (map ofKbEntry
                               (getMockRetrievalResults (query o))))).
    { unfold mainAnswer. rewrite unavailable_safeRetrieve by exact U.
      apply mockValue_array. }
    assert (He : expansionAnswer sdk o
                 = Array (map Some
                            (map ofKbEntry
                               (getMockRetrievalResults
                                  (generateExpansionQuery (query o)))))).
    { unfold expansionAnswer. rewrite unavailable_safeRetrieve by exact U.
      apply mockValue_array. }
    rewrite (retrieveContext_on_try _ _ _ (combined_of_answers _ _ _ _ Hm He)).
    rewrite Hq.
    assert (E : rerankResults "what is RAG?"
              (removeDuplicateResults
                 (map (formatMain (includeMetadataOf o))
                    (map ofKbEntry (getMockRetrievalResults "what is RAG?"))
                  ++ map (formatExpansion (includeMetadataOf o))
                       (map ofKbEntry
                          (getMockRetrievalResults
                             (generateExpansionQuery "what is RAG?"))))%list)
            = map (formatMain (includeMetadataOf o))
                (map ofKbEntry (firstn 3 mockKb))).
    { destruct (includeMetadataOf o); vm_compute; reflexivity. }
    rewrite E. apply sliceTo_all. rewrite !length_map. simpl. exact Hk. }
  split; [exact R|].
  intros RequestHints systemPrompt messages hints model m Hm Hq.
  rewrite (enhancePromptWithRAG_enhances RequestHints sdk systemPrompt
             messages hints model m
             (map (formatMain true) (map ofKbEntry (firstn 3 mockKb)))).
  - apply createEnhancedRAGPrompt_mentions_context.
  - exact Hm.
  - rewrite Hq. discriminate.
  - rewrite Hq. reflexivity.
  - rewrite Hq. apply R; vm_compute; [reflexivity | discriminate].
  - discriminate.
Qed.

Lemma what_is_RAG_backend_unavailable_witness :
  retrieveContext None (optionsFor "what is RAG?" (Some 5%Z))
  = map (formatMain true) (map ofKbEntry (firstn 3 mockKb))
  /\ JS.includes
       (enhancePromptWithRAG None "Be brief." [userSays "what is RAG?"] tt
          defaultChatModel)
       "RETRIEVED CONTEXT" = true.
Proof.
  split.
  - apply (proj1 (what_is_RAG_backend_unavailable None sdk_missing)
             (optionsFor "what is RAG?" (Some 5%Z))).
    + reflexivity.
    + vm_compute. discriminate.
  - apply (proj2 (what_is_RAG_backend_unavailable None sdk_missing)
             unit "Be brief." [userSays "what is RAG?"] tt defaultChatModel
             (userSays "what is RAG?")); reflexivity.
Defined.

End Fallback.

(* ------------------------------------------------------------------ *)
(** ** More on the classifier *)

Section ClassifierMore.

Import Config.

(** X1: the selected chat model never changes the configuration: the
    branch for the reasoning model rebuilds the default configuration
    field by field. *)
Theorem getRagConfig_ignores_model (query model model' : string) :
  getRagConfig query model = getRagConfig query model'.
Proof.
  unfold getRagConfig.
  destruct (isConversational query); [reflexivity|].
  destruct (isFactual query); [reflexivity|].
  destruct (isInstructional query); [reflexivity|].
  destruct (model =? "chat-model-reasoning"),
    (model' =? "chat-model-reasoning"); reflexivity.
Qed.

Lemma enabled_not_greeting (query model : string) :
  enabled (getRagConfig query model) = negb (isConversational query).
Proof.
  unfold getRagConfig.
  destruct (isConversational query); [reflexivity|].
  destruct (isFactual query); [reflexivity|].
  destruct (isInstructional query); [reflexivity|].
  destruct (model =? "chat-model-reasoning"); reflexivity.
Qed.

(** X2: retrieval is switched off exactly when the lower-cased query begins
    with one of the openers "hi", "hello", "hey", "what's up",
    "how are you", whatever follows (no word boundary is required). *)
Theorem getRagConfig_disabled_iff_opener (query model : string) :
  enabled (getRagConfig query model) = false
  <-> exists opener rest,
        In opener greetingOpeners
        /\ JS.toLowerCase query = opener ++ rest.
Proof.
  rewrite enabled_not_greeting, negb_false_iff.
  unfold isConversational, JS.testAnyAtStart. rewrite existsb_exists.
  split.
  - intros [opener [Hin Hs]]. apply startsWith_spec in Hs.
    destruct Hs as [rest Hs]. now exists opener, rest.
  - intros [opener [rest [Hin Hs]]]. exists opener. split; [exact Hin|].
    apply startsWith_spec. now exists rest.
Qed.

End ClassifierMore.

(* ------------------------------------------------------------------ *)
(** ** The mock knowledge base *)

Section MockData.

Import RagieClient.

Lemma kbMatches_rag_source (normalizedQuery : string) (entry : KbEntry) :
  JS.includes (JS.toLowerCase (kb_source entry)) "rag" = true ->
  kbMatches normalizedQuery entry = true.
Proof. unfold kbMatches. intros ->. apply orb_true_r. Qed.

Lemma first_three_of_filter {A} (p : A -> bool) (a b c d e f g h : A) :
  p a = true -> p c = true -> p e = true ->
  List.length (firstn 3 (List.filter p [a; b; c; d; e; f; g; h])) = 3%nat.
Proof.
  intros Ha Hc He. simpl. rewrite Ha, Hc, He.
  destruct (p b), (p d); reflexivity.
Qed.

(** X3: the mock data is never empty: two entries for a query mentioning
    "weather", "document" or "artifact", and exactly three otherwise,
    because the entries with "rag" in their source always pass the filter. *)
Theorem getMockRetrievalResults_two_or_three (query : string) :
  List.length (getMockRetrievalResults query) = 2%nat
  \/ List.length (getMockRetrievalResults query) = 3%nat.
Proof.
  unfold getMockRetrievalResults.
  destruct (JS.includes (JS.toLowerCase query) "weather"); [now left|].
  destruct (JS.includes (JS.toLowerCase query) "document"
            || JS.includes (JS.toLowerCase query) "artifact"); [now left|].
  right. unfold JS.sliceTo, mockKb. cbn [Z.leb Z.compare Z.to_nat Pos.to_nat
                                          Pos.iter_op Nat.add].
  apply first_three_of_filter; apply kbMatches_rag_source; reflexivity.
Qed.

End MockData.

(* ------------------------------------------------------------------ *)
(** ** More on deduplication *)

Section DedupMore.

Import RagieClient.

Lemma dedupFrom_In (seen : list string) (results : list RetrievalResult)
    (r : RetrievalResult) :
  In r (dedupFrom seen results) -> In r results.
Proof.
  revert seen. induction results as [|x rest IH]; intros seen; simpl.
  - tauto.
  - destruct (existsb (String.eqb (contentHash x)) seen).
    + intros H. right. now apply IH in H.
    + intros [H | H]; [now left | right; now apply IH in H].
Qed.

Lemma dedupFrom_covers (seen : list string) (results : list RetrievalResult)
    (r : RetrievalResult) :
  In r results ->
  In (contentHash r) seen
  \/ exists r', In r' (dedupFrom seen results)
                /\ contentHash r' = contentHash r.
Proof.
  revert seen. induction results as [|x rest IH]; intros seen; simpl.
  - tauto.
  - intros [-> | H].
    + destruct (existsb (String.eqb (contentHash r)) seen) eqn:E.
      * left. now apply seen_has.
      * right. exists r. split; [now left | reflexivity].
    + destruct (existsb (String.eqb (contentHash x)) seen) eqn:E.
      * apply IH, H.
      * destruct (IH (contentHash x :: seen) H) as [[Hx | Hs] | [r' [Hr' Hh]]].
        -- right. exists x. split; [now left | exact Hx].
        -- now left.
        -- right. exists r'. split; [now right | exact Hh].
Qed.

Lemma dedupFrom_distinct (seen : list string)
    (results : list RetrievalResult) :
  NoDup (map contentHash results) ->
  (forall r, In r results -> ~ In (contentHash r) seen) ->
  dedupFrom seen results = results.
Proof.
  revert seen. induction results as [|x rest IH]; intros seen Hn Hs.
  - reflexivity.
  - simpl in Hn. inversion Hn as [|? ? Hx Hrest]; subst.
    cbn [dedupFrom].
    destruct (existsb (String.eqb (contentHash x)) seen) eqn:E.
    + apply seen_has in E. exfalso. apply (Hs x); [now left | exact E].
    + f_equal. apply IH; [exact Hrest|].
      intros r Hr [Heq | Hin].
      * apply Hx. rewrite Heq. now apply in_map.
      * apply (Hs r); [now right | exact Hin].
Qed.

(** X4: [removeDuplicateResults] returns only results of its input, and
    for every result of the input it keeps one with the same duplicate
    key: no key is lost. *)
Theorem removeDuplicateResults_keeps_every_key
    (results : list RetrievalResult) :
  (forall r, In r (removeDuplicateResults results) -> In r results)
  /\ (forall r, In r results ->
        exists r', In r' (removeDuplicateResults results)
                   /\ contentHash r' = contentHash r).
Proof.
  unfold removeDuplicateResults. split.
  - intros r. apply dedupFrom_In.
  - intros r Hr. destruct (dedupFrom_covers [] results r Hr) as [[]|H].
    exact H.
Qed.

(** X5: a list whose duplicate keys are pairwise distinct comes back from
    [removeDuplicateResults] as it is. *)
Theorem removeDuplicateResults_distinct_unchanged
    (results : list RetrievalResult) :
  NoDup (map contentHash results) ->
  removeDuplicateResults results = results.
Proof.
  intros H. apply dedupFrom_distinct; [exact H | intros r _ []].
Qed.

Lemma removeDuplicateResults_distinct_unchanged_witness :
  removeDuplicateResults [Stated.doc "alpha" None; Stated.doc "beta" None]
  = [Stated.doc "alpha" None; Stated.doc "beta" None].
Proof.
  apply removeDuplicateResults_distinct_unchanged.
  vm_compute. repeat constructor; simpl; intuition discriminate.
Defined.

(** X6: [removeDuplicateResults] is idempotent. *)
Theorem removeDuplicateResults_idempotent (results : list RetrievalResult) :
  removeDuplicateResults (removeDuplicateResults results)
  = removeDuplicateResults results.
Proof.
  apply dedupFrom_distinct; [apply dedupFrom_NoDup | intros r _ []].
Qed.

Lemma lowerChar_space (c : ascii) : JS.isSpace (JS.lowerChar c) = JS.isSpace c.
Proof.
  destruct c as [b0 b1 b2 b3 b4 b5 b6 b7].
  destruct b0, b1, b2, b3, b4, b5, b6, b7; reflexivity.
Qed.

Lemma toLowerCase_empty (s : string) :
  (JS.toLowerCase s =? "") = (s =? "").
Proof. destruct s; reflexivity. Qed.

Lemma slice0_lower (n : nat) (s : string) :
  JS.slice0 n (JS.toLowerCase s) = JS.toLowerCase (JS.slice0 n s).
Proof.
  revert s. induction n as [|n IH]; intros [|c s]; simpl; try reflexivity.
  now rewrite IH.
Qed.

Lemma trimStart_lower (s : string) :
  JS.trimStart (JS.toLowerCase s) = JS.toLowerCase (JS.trimStart s).
Proof.
  induction s as [|c s IH]; simpl; [reflexivity|].
  rewrite lowerChar_space. destruct (JS.isSpace c); [exact IH | reflexivity].
Qed.

Lemma trimEnd_lower (s : string) :
  JS.trimEnd (JS.toLowerCase s) = JS.toLowerCase (JS.trimEnd s).
Proof.
  induction s as [|c s IH]; simpl; [reflexivity|].
  rewrite lowerChar_space, IH, toLowerCase_empty.
  destruct (JS.isSpace c && (JS.trimEnd s =? "")); reflexivity.
Qed.

Lemma contentHash_of_lower (r : RetrievalResult) :
  contentHash r
  = JS.trim (JS.toLowerCase (JS.slice0 100 (content r))).
Proof.
  unfold contentHash, JS.trim.
  now rewrite <- trimEnd_lower, <- trimStart_lower.
Qed.

(** X7: the duplicate key looks at the first 100 characters only and
    ignores letter case: two results whose first 100 characters agree once
    lower-cased have the same key. *)
Theorem contentHash_ignores_case (a b : RetrievalResult) :
  JS.toLowerCase (JS.slice0 100 (content a))
  = JS.toLowerCase (JS.slice0 100 (content b)) ->
  contentHash a = contentHash b.
Proof. intros H. now rewrite !contentHash_of_lower, H. Qed.

Lemma contentHash_ignores_case_witness :
  contentHash (Stated.doc "RAG Basics" None)
  = contentHash (Stated.doc "rag basics" (Some (1 # 2))).
Proof. apply contentHash_ignores_case. reflexivity. Defined.

End DedupMore.

(* ------------------------------------------------------------------ *)
(** ** More on reranking *)

Section SortMore.

Variable A : Type.
Variable cmp : A -> A -> Q.

Lemma sort_of_sorted (l : list A) :
  StronglySorted (JS.before cmp) l -> JS.sort cmp l = l.
Proof.
  induction 1 as [|x l Hs IH Hx]; [reflexivity|].
  cbn [JS.sort]. rewrite IH.
  destruct l as [|y l]; [reflexivity|].
  cbn [JS.insert]. inversion Hx as [|? ? Hxy _]; subst.
  apply Qle_bool_iff in Hxy. now rewrite Hxy.
Qed.

Lemma sort_ext (cmp' : A -> A -> Q) (l : list A) :
  (forall a b, cmp a b = cmp' a b) -> JS.sort cmp l = JS.sort cmp' l.
Proof.
  intros E. induction l as [|x l IH]; [reflexivity|].
  cbn [JS.sort]. rewrite IH. generalize (JS.sort cmp' l) as s.
  induction s as [|y s IHs]; [reflexivity|].
  cbn [JS.insert]. now rewrite E, IHs.
Qed.

End SortMore.

Section RerankMore.

Import AdvancedPrompting Stated.

(** X8: reranking an already reranked list changes nothing. *)
Theorem rerankResults_idempotent
    (query : string) (results : list RetrievalResult) :
  rerankResults query (rerankResults query results)
  = rerankResults query results.
Proof.
  rewrite !rerankResults_sort. apply sort_of_sorted, sort_sorted.
  - apply compareFn_total.
  - apply compareFn_trans.
Qed.

(** X9: the order computed by [rerankResults] does not depend on the
    letter case of the query. *)
Theorem rerankResults_ignores_query_case
    (q q' : string) (results : list RetrievalResult) :
  JS.toLowerCase q = JS.toLowerCase q' ->
  rerankResults q results = rerankResults q' results.
Proof.
  intros E. rewrite !rerankResults_sort. apply sort_ext.
  intros a b. unfold compareFn, containsQuery. now rewrite E.
Qed.

Lemma rerankResults_ignores_query_case_witness :
  rerankResults "RAG" [doc "cats" None; doc "about rag" None]
  = rerankResults "rag" [doc "cats" None; doc "about rag" None].
Proof. apply rerankResults_ignores_query_case. reflexivity. Defined.

End RerankMore.

(* ------------------------------------------------------------------ *)
(** ** More on the retrieval client *)

Section RetrievalMore.

Import AdvancedPrompting RagieClient Stated.

Lemma mapItems_from {B} (f : RawResult -> B) (items : list (option RawResult))
    (out : list B) :
  mapItems f items = Some out -> forall y, In y out -> exists x, y = f x.
Proof.
  revert out. induction items as [|[x|] rest IH]; intros out; simpl.
  - intros [= <-] y [].
  - destruct (mapItems f rest) as [out'|]; [|discriminate].
    intros [= <-] y [<- | Hy]; [now exists x | now apply (IH out')].
  - discriminate.
Qed.

Lemma mapValue_from {B} (f : RawResult -> B) (v : Value) (out : list B) :
  mapValue f v = Some out -> forall y, In y out -> exists x, y = f x.
Proof. destruct v; simpl; [discriminate | apply mapItems_from]. Qed.

Lemma combined_parts (sdk : option Client) (o : RetrievalOptions)
    (all : list RetrievalResult) :
  combined sdk o = Some all ->
  exists main expansion,
    all = (main ++ expansion)%list
    /\ (forall r, In r main ->
          exists raw, r = formatMain (includeMetadataOf o) raw)
    /\ (forall r, In r expansion ->
          exists raw, r = formatExpansion (includeMetadataOf o) raw).
Proof.
  unfold combined, allResults.
  destruct (mapValue (formatMain _) _) as [main|] eqn:Em; [|discriminate].
  destruct (mapValue (formatExpansion _) _) as [expansion|] eqn:Ee;
    [|discriminate].
  intros [= <-]. exists main, expansion. split; [reflexivity|]. split.
  - apply (mapValue_from _ _ _ Em).
  - apply (mapValue_from _ _ _ Ee).
Qed.

Lemma retrieveContext_in_combined (sdk : option Client)
    (o : RetrievalOptions) (all : list RetrievalResult) (r : RetrievalResult) :
  combined sdk o = Some all -> In r (retrieveContext sdk o) -> In r all.
Proof.
  intros H. rewrite (retrieveContext_on_try _ _ _ H).
  destruct (sliceTo_firstn (topKOf o)
              (rerankResults (query o) (removeDuplicateResults all)))
    as [n ->].
  intros Hr. apply firstn_In in Hr.
  apply (Permutation_in _ (Permutation_sym (rerankResults_perm _ _))) in Hr.
  now apply dedupFrom_In in Hr.
Qed.

(** Where a returned result comes from: a main-query item, an
    expansion-query item, or (outer [catch]) a mock entry for the query. *)
Lemma retrieveContext_provenance (sdk : option Client)
    (o : RetrievalOptions) (r : RetrievalResult) :
  In r (retrieveContext sdk o) ->
  (exists raw, r = formatMain (includeMetadataOf o) raw)
  \/ (exists raw, r = formatExpansion (includeMetadataOf o) raw)
  \/ (exists e, In e (getMockRetrievalResults (query o))
                /\ content r = kb_content e
                /\ metadata r = (if includeMetadataOf o
                                 then Some (kbMetadata e) else None)
                /\ score r = Some (kb_score e)
                /\ origin r = None).
Proof.
  destruct (combined sdk o) as [all|] eqn:E.
  - intros Hr. apply (retrieveContext_in_combined _ _ _ _ E) in Hr.
    destruct (combined_parts _ _ _ E) as [main [expansion [-> [Hm He]]]].
    apply in_app_or in Hr. destruct Hr as [Hr | Hr].
    + left. now apply Hm.
    + right. left. now apply He.
  - rewrite (retrieveContext_on_catch _ _ E). unfold fallbackResults.
    intros Hr. apply in_map_iff in Hr. destruct Hr as [e [<- He]].
    right. right. exists e. repeat split. exact He.
Qed.

(** X10: with [includeMetadata: false] no returned result carries
    metadata, on the [try] path and on the [catch] path alike. *)
Theorem retrieveContext_without_metadata (sdk : option Client)
    (o : RetrievalOptions) :
  includeMetadata o = Some false ->
  forall r, In r (retrieveContext sdk o) -> metadata r = None.
Proof.
  intros Him r Hr.
  assert (E : includeMetadataOf o = false)
    by (unfold includeMetadataOf; now rewrite Him).
  destruct (retrieveContext_provenance sdk o r Hr)
    as [[raw ->] | [[raw ->] | [e [_ [_ [Hm _]]]]]].
  - simpl. now rewrite E.
  - simpl. now rewrite E.
  - now rewrite Hm, E.
Qed.

Lemma retrieveContext_without_metadata_witness :
  metadata
    (nth 0
       (retrieveContext None
          {| query := "weather"; topK := None; filter := None;
             includeMetadata := Some false |})
       (doc "" None))
  = None.
Proof.
  apply (retrieveContext_without_metadata None
           {| query := "weather"; topK := None; filter := None;
              includeMetadata := Some false |}).
  - reflexivity.
  - vm_compute. now left.
Defined.









End RetrievalMore.

Section RetrievalBounds.

Import AdvancedPrompting RagieClient Stated.

Lemma sliceTo_length_min {A} (k : Z) (l : list A) :
  (0 <= k)%Z ->
  Z.of_nat (List.length (JS.sliceTo k l)) = Z.min k (Z.of_nat (List.length l)).
Proof.
  intros Hk. unfold JS.sliceTo.
  destruct (Z.leb_spec 0 k); [|lia].
  rewrite length_firstn. lia.
Qed.

(** X12: when the body of the [try] completes and [topK] is not negative,
    the number of results is the smaller of [topK] and the number of
    distinct duplicate keys met (the length of the deduplicated list). *)
Theorem retrieveContext_count_on_try (sdk : option Client)
    (o : RetrievalOptions) (all : list RetrievalResult) :
  combined sdk o = Some all -> (0 <= topKOf o)%Z ->
  Z.of_nat (List.length (retrieveContext sdk o))
  = Z.min (topKOf o) (Z.of_nat (List.length (removeDuplicateResults all))).
Proof.
  intros H Hk. rewrite (retrieveContext_on_try _ _ _ H).
  rewrite sliceTo_length_min by exact Hk.
  now rewrite <- (Permutation_length (rerankResults_perm (query o) _)).
Qed.

Lemma retrieveContext_count_on_try_witness :
  Z.of_nat (List.length (retrieveContext None (optionsFor "vector" (Some 2%Z))))
  = 2%Z.
Proof.
  rewrite (retrieveContext_count_on_try None (optionsFor "vector" (Some 2%Z))
             (map (formatMain true)
                (map ofKbEntry (getMockRetrievalResults "vector"))
              ++ map (formatExpansion true)
                   (map ofKbEntry (getMockRetrievalResults "what is vector")))%list).
  - vm_compute. reflexivity.
  - vm_compute. reflexivity.
  - vm_compute. discriminate.
Defined.

Lemma formatMain_origin (im : bool) (raw : RawResult) :
  origin (formatMain im raw) = Some main_query.
Proof. reflexivity. Qed.

(** X13: a main-query result wins over an expansion-query result with the
    same duplicate key: an expansion result that is returned has a key no
    main result has. *)
Theorem retrieveContext_main_wins (sdk : option Client)
    (o : RetrievalOptions) (main expansion : list RawResult)
    (r : RetrievalResult) :
  mainAnswer sdk o = Array (map Some main) ->
  expansionAnswer sdk o = Array (map Some expansion) ->
  In r (retrieveContext sdk o) ->
  origin r = Some expansion_query ->
  ~ In (contentHash r)
      (map contentHash (map (formatMain (includeMetadataOf o)) main)).
Proof.
  intros Hm He Hr Ho.
  pose proof (combined_of_answers _ _ _ _ Hm He) as Hc.
  rewrite (retrieveContext_on_try _ _ _ Hc) in Hr.
  destruct (sliceTo_firstn (topKOf o)
              (rerankResults (query o)
                 (removeDuplicateResults
                    (map (formatMain (includeMetadataOf o)) main
                     ++ map (formatExpansion (includeMetadataOf o)) expansion)%list)))
    as [n Hn].
  rewrite Hn in Hr. apply firstn_In in Hr.
  apply (Permutation_in _ (Permutation_sym (rerankResults_perm _ _))) in Hr.
  apply dedupFrom_first in Hr. destruct Hr as [l1 [l2 [Hsplit Hfresh]]].
  symmetry in Hsplit. apply app_eq_app in Hsplit.
  destruct Hsplit as [l [[H1 H2] | [H1 H2]]].
  - (* l1 = main' ++ l : the main results lie in front of r *)
    intros Hin. apply Hfresh. rewrite H1, map_app.
    apply in_or_app. now left.
  - destruct l as [|x l].
    + rewrite app_nil_r in H1. intros Hin. apply Hfresh. now rewrite <- H1.
    + simpl in H2. injection H2 as <- _.
      assert (Hx : In r (map (formatMain (includeMetadataOf o)) main)).
      { rewrite H1. apply in_or_app. right. now left. }
      apply in_map_iff in Hx. destruct Hx as [raw [<- _]].
      rewrite formatMain_origin in Ho. discriminate.
Qed.

Lemma retrieveContext_main_wins_witness :
  ~ In (contentHash (formatExpansion true (rawDoc "second")))
      (map contentHash (map (formatMain true) [rawDoc "first"])).
Proof.
  apply (retrieveContext_main_wins
           (Some {| retrieve :=
                      Some (fun p =>
                              Returned
                                (Array
                                   [Some (rawDoc
                                            (if p_query p =? "anything"
                                             then "first" else "second"))]));
                    search := None |})
           (optionsFor "anything" None)
           [rawDoc "first"] [rawDoc "second"]).
  - reflexivity.
  - reflexivity.
  - vm_compute. right. now left.
  - reflexivity.
Defined.

End RetrievalBounds.

(* ------------------------------------------------------------------ *)
(** ** Working without a backend *)

Section Offline.

Import AdvancedPrompting RagieClient PromptEngineering Stated.

Lemma unavailable_combined (sdk : option Client) (o : RetrievalOptions) :
  Unavailable sdk ->
  combined sdk o
  = Some (map (formatMain (includeMetadataOf o))
            (map ofKbEntry (getMockRetrievalResults (query o)))
          ++ map (formatExpansion (includeMetadataOf o))
               (map ofKbEntry
                  (getMockRetrievalResults
                     (generateExpansionQuery (query o)))))%list.
Proof.
  intros U. apply combined_of_answers.
  - unfold mainAnswer. rewrite unavailable_safeRetrieve by exact U.
    apply mockValue_array.
  - unfold expansionAnswer. rewrite unavailable_safeRetrieve by exact U.
    apply mockValue_array.
Qed.

(** X14: every way of being without a backend gives the same results:
    an SDK that fails to load, a client without [retrieve] and [search],
    and a client whose call always rejects are indistinguishable. *)
Theorem retrieveContext_unavailable_alike (sdk : option Client)
    (o : RetrievalOptions) :
  Unavailable sdk -> retrieveContext sdk o = retrieveContext None o.
Proof.
  intros U.
  rewrite (retrieveContext_on_try _ _ _ (unavailable_combined sdk o U)).
  now rewrite (retrieveContext_on_try _ _ _
                 (unavailable_combined None o sdk_missing)).
Qed.

Lemma retrieveContext_unavailable_alike_witness :
  retrieveContext
    (Some {| retrieve := Some (fun _ => Thrown); search := None |})
    (optionsFor "prompt design" None)
  = retrieveContext None (optionsFor "prompt design" None).
Proof.
  apply retrieveContext_unavailable_alike.
  apply retrieve_rejects. reflexivity.
Defined.

Lemma mock_nonempty (q : string) : getMockRetrievalResults q <> [].
Proof.
  unfold getMockRetrievalResults.
  destruct (JS.includes (JS.toLowerCase q) "weather"); [discriminate|].
  destruct (JS.includes (JS.toLowerCase q) "document"
            || JS.includes (JS.toLowerCase q) "artifact"); [discriminate|].
  intros E. apply (f_equal (@List.length _)) in E. revert E.
  unfold JS.sliceTo, mockKb. cbn [Z.leb Z.compare Z.to_nat Pos.to_nat
                                   Pos.iter_op Nat.add].
  rewrite first_three_of_filter; [discriminate | | |];
    apply kbMatches_rag_source; reflexivity.
Qed.

Lemma unavailable_nonempty (sdk : option Client) (o : RetrievalOptions) :
  Unavailable sdk -> (1 <= topKOf o)%Z -> retrieveContext sdk o <> [].
Proof.
  intros U Hk E. apply (f_equal (@List.length _)) in E.
  rewrite (retrieveContext_on_try _ _ _ (unavailable_combined sdk o U)) in E.
  pose proof (sliceTo_length_min (topKOf o)
                (rerankResults (query o)
                   (removeDuplicateResults
                      (map (formatMain (includeMetadataOf o))
                         (map ofKbEntry (getMockRetrievalResults (query o)))
                       ++ map (formatExpansion (includeMetadataOf o))
                            (map ofKbEntry
                               (getMockRetrievalResults
                                  (generateExpansionQuery (query o)))))%list)))
    as Hlen.
  rewrite E in Hlen.
  rewrite <- (Permutation_length (rerankResults_perm (query o) _)) in Hlen.
  destruct (getMockRetrievalResults (query o)) as [|e rest] eqn:Em.
  - now apply (mock_nonempty (query o)).
  - cbn in Hlen. lia.
Qed.

(** X15: without a backend, [retrieveContext] with [topK] at least 1
    always returns something: the mock data is never empty. *)
Theorem retrieveContext_unavailable_nonempty (sdk : option Client)
    (o : RetrievalOptions) :
  Unavailable sdk -> (1 <= topKOf o)%Z ->
  (1 <= List.length (retrieveContext sdk o))%nat.
Proof.
  intros U Hk. pose proof (unavailable_nonempty sdk o U Hk) as H.
  destruct (retrieveContext sdk o); [congruence | simpl; lia].
Qed.

Lemma retrieveContext_unavailable_nonempty_witness :
  (1 <= List.length
          (retrieveContext (Some {| retrieve := None; search := None |})
             (optionsFor "zebra" (Some 1%Z))))%nat.
Proof.
  apply retrieveContext_unavailable_nonempty.
  - apply no_method.
  - vm_compute. discriminate.
Defined.

Lemma topK_at_least_three (q model : string) :
  (3 <= Config.topK (Config.getRagConfig q model))%Z.
Proof.
  unfold Config.getRagConfig.
  destruct (Config.isConversational q); [simpl; lia|].
  destruct (Config.isFactual q); [simpl; lia|].
  destruct (Config.isInstructional q); [simpl; lia|].
  destruct (model =? "chat-model-reasoning"); simpl; lia.
Qed.

(** X16: without a backend, every conversation whose last user message has
    a non-empty text that is no greeting gets an enhanced prompt: the
    result contains "RETRIEVED CONTEXT" and differs from the system
    prompt. *)
Theorem enhancePromptWithRAG_unavailable_enhances
    (RequestHints : Type) (sdk : option Client) (systemPrompt : string)
    (messages : list UIMessage) (hints : RequestHints) (model : string)
    (m : UIMessage) :
  Unavailable sdk ->
  lastUserMessage messages = Some m ->
  extractQueryFromMessage m <> "" ->
  Config.isConversational (extractQueryFromMessage m) = false ->
  JS.includes (enhancePromptWithRAG sdk systemPrompt messages hints model)
    "RETRIEVED CONTEXT" = true
  /\ enhancePromptWithRAG sdk systemPrompt messages hints model
     <> systemPrompt.
Proof.
  intros U Hm Hq Hg.
  assert (E : enhancePromptWithRAG sdk systemPrompt messages hints model
              = createEnhancedRAGPrompt systemPrompt
                  (extractQueryFromMessage m)
                  (formatRetrievedContext
                     (retrieveContext sdk
                        (retrievalOptionsOf (extractQueryFromMessage m)
                           (Config.getRagConfig (extractQueryFromMessage m)
                              model))))).
  { apply (enhancePromptWithRAG_enhances RequestHints sdk systemPrompt
             messages hints model m); try assumption; try reflexivity.
    - rewrite enabled_not_greeting, Hg. reflexivity.
    - apply unavailable_nonempty; [exact U|].
      unfold topKOf, retrievalOptionsOf. cbn [topK orDefault].
      pose proof (topK_at_least_three (extractQueryFromMessage m) model).
      lia. }
  rewrite E. split.
  - apply createEnhancedRAGPrompt_mentions_context.
  - destruct (createEnhancedRAGPrompt_shape systemPrompt
                (extractQueryFromMessage m)
                (formatRetrievedContext
                   (retrieveContext sdk
                      (retrievalOptionsOf (extractQueryFromMessage m)
                         (Config.getRagConfig (extractQueryFromMessage m)
                            model))))) as [rest ->].
    intros H. apply (f_equal String.length) in H.
    rewrite append_length in H. simpl in H. lia.
Qed.

Lemma enhancePromptWithRAG_unavailable_enhances_witness :
  JS.includes
    (enhancePromptWithRAG None "Be brief." [userSays "tell me a story"] tt
       defaultChatModel)
    "RETRIEVED CONTEXT" = true
  /\ enhancePromptWithRAG None "Be brief." [userSays "tell me a story"] tt
       defaultChatModel <> "Be brief.".
Proof.
  apply (enhancePromptWithRAG_unavailable_enhances unit None "Be brief."
           [userSays "tell me a story"] tt defaultChatModel
           (userSays "tell me a story")).
  - apply sdk_missing.
  - reflexivity.
  - discriminate.
  - reflexivity.
Defined.

End Offline.

(* ------------------------------------------------------------------ *)
(** ** What reaches the prompt *)

Section PromptContent.

Import AdvancedPrompting RagieClient Stated.

Lemma includes_refl (s : string) : JS.includes s s = true.
Proof.
  apply includes_spec. exists "", "". simpl. now rewrite append_nil_r.
Qed.

Lemma includes_in_app_l (s u t : string) :
  JS.includes s t = true -> JS.includes (s ++ u) t = true.
Proof.
  rewrite !includes_spec. intros [a [b ->]].
  exists a, (b ++ u). now rewrite !append_assoc.
Qed.

Lemma includes_in_app_r (s u t : string) :
  JS.includes s t = true -> JS.includes (u ++ s) t = true.
Proof.
  rewrite !includes_spec. intros [a [b ->]].
  exists (u ++ a), b. now rewrite !append_assoc.
Qed.

Lemma join_includes (sep t : string) (l : list string) (s : string) :
  In s l -> JS.includes s t = true -> JS.includes (JS.join sep l) t = true.
Proof.
  intros Hin Hs. induction l as [|x rest IH]; [destruct Hin|].
  destruct rest as [|y rest].
  - destruct Hin as [-> | []]. exact Hs.
  - change (JS.join sep (x :: y :: rest))
      with (x ++ sep ++ JS.join sep (y :: rest)).
    destruct Hin as [-> | Hin].
    + now apply includes_in_app_l.
    + apply includes_in_app_r, includes_in_app_r. now apply IH.
Qed.

Lemma mapi_from_In {A B} (f : A -> nat -> B) (l : list A) (k : nat) (x : A) :
  In x l -> exists i, In (f x i) (JS.mapi_from k f l).
Proof.
  revert k. induction l as [|y rest IH]; intros k; [intros []|].
  intros [-> | Hx].
  - exists k. now left.
  - destruct (IH (S k) Hx) as [i Hi]. exists i. now right.
Qed.

Lemma formatOne_includes_content (r : RetrievalResult) (index : nat) :
  JS.includes (formatOne r index) (content r) = true.
Proof.
  apply includes_spec.
  exists ("[Document " ++ JS.ofNat (index + 1) ++ "]:" ++ JS.nl),
    (metadataString r).
  unfold formatOne. now rewrite !append_assoc.
Qed.

Lemma formatted_includes_content (rs : list RetrievalResult)
    (r : RetrievalResult) :
  In r rs ->
  JS.includes (formatRetrievedContext rs) (content r) = true.
Proof.
  intros Hr. rewrite formatRetrievedContext_join.
  destruct (mapi_from_In formatOne rs 0 r Hr) as [i Hi].
  apply (join_includes _ _ _ (formatOne r i) Hi).
  apply formatOne_includes_content.
Qed.

(** X17: the formatted context of a non-empty list opens with
    "[Document 1]:" on a line of its own and contains the content of every
    result verbatim. *)
Theorem formatRetrievedContext_carries_contents
    (r0 : RetrievalResult) (rest : list RetrievalResult) :
  JS.startsWith (formatRetrievedContext (r0 :: rest))
    ("[Document 1]:" ++ JS.nl) = true
  /\ forall r, In r (r0 :: rest) ->
       JS.includes (formatRetrievedContext (r0 :: rest)) (content r) = true.
Proof.
  split; [|intros r; apply formatted_includes_content].
  apply startsWith_spec.
  unfold formatRetrievedContext, JS.mapi. cbn [JS.mapi_from].
  destruct (JS.mapi_from 1 formatOne rest) as [|s l].
  - exists (content r0 ++ metadataString r0). reflexivity.
  - change (JS.join (JS.nl ++ JS.nl) (formatOne r0 0 :: s :: l))
      with (formatOne r0 0 ++ (JS.nl ++ JS.nl)
              ++ JS.join (JS.nl ++ JS.nl) (s :: l)).
    exists (content r0 ++ metadataString r0 ++ (JS.nl ++ JS.nl)
              ++ JS.join (JS.nl ++ JS.nl) (s :: l)).
    unfold formatOne. rewrite !append_assoc. reflexivity.
Qed.

Lemma prompt_includes_context (basePrompt userQuery context : string) :
  JS.includes (createEnhancedRAGPrompt basePrompt userQuery context) context
  = true.
Proof.
  unfold createEnhancedRAGPrompt.
  apply includes_in_app_r, includes_in_app_r, includes_in_app_l.
  apply includes_refl.
Qed.

(** X18: the enhanced prompt contains, verbatim, the retrieved context, the
    instruction block chosen for the query, and the two fixed blocks: the
    seven numbered lines under "INSTRUCTIONS FOR USING CONTEXT:" and the six
    lines under "RESPONSE QUALITY GUIDELINES:"; the second block and a line
    break end the prompt. *)
Theorem createEnhancedRAGPrompt_contents
    (basePrompt userQuery context : string) :
  JS.includes (createEnhancedRAGPrompt basePrompt userQuery context) context
  = true
  /\ JS.includes (createEnhancedRAGPrompt basePrompt userQuery context)
       (generateQuerySpecificInstructions userQuery) = true
  /\ JS.includes (createEnhancedRAGPrompt basePrompt userQuery context)
       usageInstructionsBlock = true
  /\ JS.includes (createEnhancedRAGPrompt basePrompt userQuery context)
       qualityGuidelinesBlock = true
  /\ exists front,
       createEnhancedRAGPrompt basePrompt userQuery context
       = front ++ usageInstructionsBlock ++ JS.nl ++ JS.nl
           ++ qualityGuidelinesBlock ++ JS.nl.
Proof.
  split; [apply prompt_includes_context|].
  unfold createEnhancedRAGPrompt. repeat split.
  - do 5 apply includes_in_app_r. apply includes_in_app_l, includes_refl.
  - do 8 apply includes_in_app_r. vm_compute. reflexivity.
  - do 8 apply includes_in_app_r. vm_compute. reflexivity.
  - exists (basePrompt ++ contextHeader ++ context ++ JS.nl ++ JS.nl
              ++ generateQuerySpecificInstructions userQuery
              ++ JS.nl ++ JS.nl).
    rewrite !append_assoc. do 8 f_equal.
Qed.

(** X19: every document that [retrieveContext] returns for the last user
    message reaches the prompt: when that message has a non-empty text for
    which retrieval is enabled, the content of each returned result occurs
    verbatim in the string [PromptEngineering.enhancePromptWithRAG] returns. *)
Theorem enhancePromptWithRAG_carries_documents
    (RequestHints : Type) (sdk : option Client) (systemPrompt : string)
    (messages : list PromptEngineering.UIMessage) (hints : RequestHints) (model : string)
    (m : PromptEngineering.UIMessage) (r : RetrievalResult) :
  PromptEngineering.lastUserMessage messages = Some m ->
  PromptEngineering.extractQueryFromMessage m <> "" ->
  Config.enabled (Config.getRagConfig (PromptEngineering.extractQueryFromMessage m) model)
  = true ->
  In r (retrieveContext sdk
          (PromptEngineering.retrievalOptionsOf (PromptEngineering.extractQueryFromMessage m)
             (Config.getRagConfig (PromptEngineering.extractQueryFromMessage m) model))) ->
  JS.includes (PromptEngineering.enhancePromptWithRAG sdk systemPrompt messages hints model)
    (content r) = true.
Proof.
  intros Hm Hq He Hr.
  rewrite (enhancePromptWithRAG_enhances RequestHints sdk systemPrompt
             messages hints model m _ Hm Hq He eq_refl).
  - rewrite includes_spec.
    pose proof (prompt_includes_context systemPrompt
                  (PromptEngineering.extractQueryFromMessage m)
                  (formatRetrievedContext
                     (retrieveContext sdk
                        (PromptEngineering.retrievalOptionsOf (PromptEngineering.extractQueryFromMessage m)
                           (Config.getRagConfig (PromptEngineering.extractQueryFromMessage m)
                              model))))) as Hc.
    pose proof (formatted_includes_content _ _ Hr) as Hf.
    apply includes_spec in Hc. destruct Hc as [a [b ->]].
    apply includes_spec in Hf. destruct Hf as [c [d ->]].
    exists (a ++ c), (d ++ b). now rewrite !append_assoc.
  - intros E. rewrite E in Hr. destruct Hr.
Qed.

Lemma enhancePromptWithRAG_carries_documents_witness :
  JS.includes
    (PromptEngineering.enhancePromptWithRAG
       (Some (constantClient (Array [Some (rawDoc "Zebras have stripes.")])))
       "Be brief." [userSays "tell me about zebras"] tt PromptEngineering.defaultChatModel)
    "Zebras have stripes." = true.
Proof.
  apply (enhancePromptWithRAG_carries_documents unit
           (Some (constantClient (Array [Some (rawDoc "Zebras have stripes.")])))
           "Be brief." [userSays "tell me about zebras"] tt PromptEngineering.defaultChatModel
           (userSays "tell me about zebras")
           (formatMain true (rawDoc "Zebras have stripes."))).
  - reflexivity.
  - discriminate.
  - reflexivity.
  - vm_compute. now left.
Defined.

End PromptContent.

(* ------------------------------------------------------------------ *)
(** ** Reading the conversation *)

Section Conversation.

Import RagieClient PromptEngineering Stated.

Lemma pop_last {A} (l : list A) (x : A) : JS.pop (l ++ [x])%list = Some x.
Proof.
  induction l as [|y l IH]; [reflexivity|].
  change (JS.pop ((y :: l) ++ [x])%list)
    with (match (l ++ [x])%list with
          | [] => Some y
          | _ :: _ => JS.pop (l ++ [x])%list
          end).
  rewrite IH. now destruct l.
Qed.

Lemma lastUserMessage_found (earlier later : list UIMessage) (m : UIMessage) :
  role m = "user" ->
  Forall (fun msg => role msg <> "user") later ->
  lastUserMessage (earlier ++ m :: later)%list = Some m.
Proof.
  intros Hm Hl. unfold lastUserMessage.
  rewrite filter_app. cbn [List.filter]. rewrite Hm. cbn [String.eqb].
  replace (List.filter (fun msg => role msg =? "user") later) with
    (@nil UIMessage).
  - change ("user" =? "user") with true. cbv iota. apply pop_last.
  - symmetry. induction Hl as [|x l Hx _ IH]; [reflexivity|].
    cbn [List.filter]. apply String.eqb_neq in Hx. now rewrite Hx.
Qed.

(** X20: only the last user message counts: what comes before it, and any
    messages of other roles after it, do not change the result. *)
Theorem enhancePromptWithRAG_last_user_only
    (RequestHints : Type) (sdk : option Client) (systemPrompt : string)
    (earlier later : list UIMessage) (m : UIMessage)
    (hints : RequestHints) (model : string) :
  role m = "user" ->
  Forall (fun msg => role msg <> "user") later ->
  enhancePromptWithRAG sdk systemPrompt (earlier ++ m :: later)%list
    hints model
  = enhancePromptWithRAG sdk systemPrompt [m] hints model.
Proof.
  intros Hm Hl. unfold enhancePromptWithRAG.
  rewrite (lastUserMessage_found earlier later m Hm Hl).
  pose proof (lastUserMessage_found [] [] m Hm (Forall_nil _)) as H.
  cbn [app] in H. now rewrite H.
Qed.

Lemma enhancePromptWithRAG_last_user_only_witness :
  enhancePromptWithRAG None "Be brief."
    [userSays "hello";
     {| role := "assistant"; content := Some "Hi!"; parts := None |};
     userSays "what is RAG?";
     {| role := "assistant"; content := Some "..."; parts := None |}]
    tt defaultChatModel
  = enhancePromptWithRAG None "Be brief." [userSays "what is RAG?"] tt
      defaultChatModel.
Proof.
  apply (enhancePromptWithRAG_last_user_only unit None "Be brief."
           [userSays "hello";
            {| role := "assistant"; content := Some "Hi!"; parts := None |}]
           [{| role := "assistant"; content := Some "..."; parts := None |}]
           (userSays "what is RAG?")).
  - reflexivity.
  - repeat constructor. discriminate.
Defined.

Lemma filter_none {A} (p : A -> bool) (l : list A) :
  Forall (fun x => p x = false) l -> List.filter p l = [].
Proof.
  induction 1 as [|x l Hx _ IH]; [reflexivity|].
  cbn [List.filter]. now rewrite Hx.
Qed.

(** X21: a last user message without text leaves the prompt as it is: this
    is so when its [content] is the empty string, even if it has text
    parts, and when it has no string [content] and none of its parts has
    type "text". *)
Theorem enhancePromptWithRAG_no_text_no_change
    (RequestHints : Type) (sdk : option Client) (systemPrompt : string)
    (messages : list UIMessage) (hints : RequestHints) (model : string)
    (m : UIMessage) :
  lastUserMessage messages = Some m ->
  content m = Some ""
  \/ (content m = None
      /\ forall ps, parts m = Some ps ->
           Forall (fun part => isTextPart part = false) ps) ->
  enhancePromptWithRAG sdk systemPrompt messages hints model = systemPrompt.
Proof.
  intros Hm Hc. unfold enhancePromptWithRAG. rewrite Hm.
  assert (E : extractQueryFromMessage m = "").
  { unfold extractQueryFromMessage.
    destruct Hc as [-> | [-> Hp]]; [reflexivity|].
    destruct (parts m) as [ps|]; [|reflexivity].
    fold isTextPart. now rewrite (filter_none _ _ (Hp ps eq_refl)). }
  now rewrite E.
Qed.

Lemma enhancePromptWithRAG_no_text_no_change_witness :
  enhancePromptWithRAG None "Be brief."
    [userParts [{| type := "image"; text := None |}]] tt defaultChatModel
  = "Be brief."
  /\ enhancePromptWithRAG None "Be brief."
       [{| role := "user"; content := Some "";
           parts := Some [{| type := "text"; text := Some "what is RAG?" |}] |}]
       tt defaultChatModel
     = "Be brief.".
Proof.
  split.
  - apply (enhancePromptWithRAG_no_text_no_change unit None "Be brief."
             [userParts [{| type := "image"; text := None |}]] tt
             defaultChatModel
             (userParts [{| type := "image"; text := None |}])).
    + reflexivity.
    + right. split; [reflexivity|].
      intros ps [= <-]. repeat constructor.
  - apply (enhancePromptWithRAG_no_text_no_change unit None "Be brief."
             [{| role := "user"; content := Some "";
                 parts := Some [{| type := "text";
                                   text := Some "what is RAG?" |}] |}]
             tt defaultChatModel
             {| role := "user"; content := Some "";
                parts := Some [{| type := "text";
                                  text := Some "what is RAG?" |}] |}).
    + reflexivity.
    + now left.
Defined.

End Conversation.

(* ------------------------------------------------------------------ *)
(** ** Query expansion and query-specific instructions *)

Section Expansion.

Import AdvancedPrompting Stated.

Lemma dropFinalQuestionMark_spec (s : string) :
  s = dropFinalQuestionMark s ++ "?"
  \/ (s = dropFinalQuestionMark s /\ forall t, s <> t ++ "?").
Proof.
  induction s as [|c rest IH].
  - right. split; [reflexivity|]. intros [|x t]; discriminate.
  - cbn [dropFinalQuestionMark].
    destruct (Ascii.eqb c "?"%char && (rest =? "")) eqn:E.
    + apply andb_true_iff in E. destruct E as [Ec Er].
      apply Ascii.eqb_eq in Ec. apply String.eqb_eq in Er. subst.
      left. reflexivity.
    + destruct IH as [IH | [IH Hn]].
      * left. simpl. f_equal. exact IH.
      * right. split; [f_equal; exact IH|].
        intros [|x t] H; simpl in H.
        -- injection H as -> ->. discriminate E.
        -- injection H as _ H. now apply (Hn t).
Qed.

Lemma beginsWithQuestionWord_iff (q : string) :
  existsb (fun word => JS.startsWith (JS.toLowerCase q) word) questionWords
  = true <-> beginsWithQuestionWord q.
Proof.
  unfold beginsWithQuestionWord. rewrite existsb_exists. split.
  - intros [w [Hw Hs]]. apply startsWith_spec in Hs.
    destruct Hs as [rest Hs]. now exists w, rest.
  - intros [w [rest [Hw Hs]]]. exists w. split; [exact Hw|].
    apply startsWith_spec. now exists rest.
Qed.

(** X22: for a query whose lower-cased text begins with a question word
    the expansion query is "background information " followed by the
    query with its final question mark removed (the query itself when it
    does not end in one); for any other query it is "what is " followed by
    the query.  In both cases it is longer than the query. *)
Theorem generateExpansionQuery_shape (q : string) :
  (beginsWithQuestionWord q ->
     exists body,
       generateExpansionQuery q = "background information " ++ body
       /\ (q = body ++ "?" \/ (q = body /\ forall t, q <> t ++ "?")))
  /\ (~ beginsWithQuestionWord q ->
      generateExpansionQuery q = "what is " ++ q)
  /\ (String.length q < String.length (generateExpansionQuery q))%nat.
Proof.
  pose proof (beginsWithQuestionWord_iff q) as Hw.
  pose proof (dropFinalQuestionMark_spec q) as Hd.
  unfold generateExpansionQuery.
  destruct (existsb _ questionWords).
  - split; [|split].
    + intros _. now exists (dropFinalQuestionMark q).
    + intros Hn. exfalso. apply Hn, Hw. reflexivity.
    + rewrite append_length.
      destruct Hd as [H | [H _]]; rewrite H at 1;
        rewrite ?append_length; simpl; lia.
  - split; [|split].
    + intros H. apply Hw in H. discriminate.
    + reflexivity.
    + rewrite append_length. simpl. lia.
Qed.

Lemma generateExpansionQuery_shape_witness :
  (exists body,
     generateExpansionQuery "What is RAG?" = "background information " ++ body
     /\ ("What is RAG?" = body ++ "?"
         \/ ("What is RAG?" = body /\ forall t, "What is RAG?" <> t ++ "?")))
  /\ generateExpansionQuery "vector search" = "what is vector search".
Proof.
  split.
  - apply (proj1 (generateExpansionQuery_shape "What is RAG?")).
    exists "what", " is rag?". split; [now left | reflexivity].
  - apply (proj1 (proj2 (generateExpansionQuery_shape "vector search"))).
    intros [w [rest [Hw H]]].
    repeat (destruct Hw as [<- | Hw]; [discriminate H|]). destruct Hw.
Defined.

Lemma existsb_false_app {A} (p : A -> bool) (l1 l2 : list A) :
  existsb p (l1 ++ l2) = false
  <-> existsb p l1 = false /\ existsb p l2 = false.
Proof. rewrite existsb_app. apply orb_false_iff. Qed.

(** X23: [generateQuerySpecificInstructions] returns the empty string
    exactly when none of its keywords occurs in the lower-cased query. *)
Theorem generateQuerySpecificInstructions_empty_iff (query : string) :
  generateQuerySpecificInstructions query = ""
  <-> forall k, In k instructionKeywords ->
        JS.includes (JS.toLowerCase query) k = false.
Proof.
  assert (H : (forall k, In k instructionKeywords ->
                 JS.includes (JS.toLowerCase query) k = false)
              <-> JS.testAny instructionKeywords query = false).
  { unfold JS.testAny. split.
    - intros Hk. destruct (existsb _ instructionKeywords) eqn:E;
        [|reflexivity].
      apply existsb_exists in E. destruct E as [k [Hin Hk']].
      now rewrite (Hk k Hin) in Hk'.
    - intros E k Hin.
      destruct (JS.includes (JS.toLowerCase query) k) eqn:Ek; [|reflexivity].
      assert (existsb (fun a => JS.includes (JS.toLowerCase query) a)
                instructionKeywords = true)
        by (apply existsb_exists; now exists k).
      congruence. }
  rewrite H. clear H.
  change instructionKeywords with
    (["compare"; "difference"; "similarities"; "versus"; "vs"]
     ++ ["how to"; "steps"; "guide"; "tutorial"; "instructions"]
     ++ ["code"; "function"; "program"; "implement"; "script"]
     ++ ["summarize"; "summary"; "overview"; "brief"])%list.
  unfold JS.testAny at 1. rewrite !existsb_false_app.
  unfold generateQuerySpecificInstructions, JS.testAny.
  destruct (existsb _ ["compare"; "difference"; "similarities"; "versus"; "vs"]);
    [split; [discriminate | intros [H _]; discriminate]|].
  destruct (existsb _ ["how to"; "steps"; "guide"; "tutorial"; "instructions"]);
    [split; [discriminate | intros [_ [H _]]; discriminate]|].
  destruct (existsb _ ["code"; "function"; "program"; "implement"; "script"]);
    [split; [discriminate | intros [_ [_ [H _]]]; discriminate]|].
  destruct (existsb _ ["summarize"; "summary"; "overview"; "brief"]);
    [split; [discriminate | intros [_ [_ [_ H]]]; discriminate]|].
  tauto.
Qed.

End Expansion.
